(** * Open3D Python I/O bindings ([src/Python/io/io.cpp])

    A shallow embedding of [pybind_io], the function that registers the
    twenty [read_<kind>] / [write_<kind>] functions of the [io] submodule,
    together with the part of the native I/O core the bindings call into.

    Layout:
    - the geometry containers and the native I/O interface the file includes;
    - Python values, pybind11 argument binding and conversion;
    - the twenty lambdas and the registration table [pybind_io];
    - the format-dispatch core (registry, sniffer, filter stage, facade);
    - the properties. *)

From Stdlib Require Import ZArith Ascii String List Bool Sorted.
From Stdlib Require Import PrimFloat SpecFloat FloatOps.
From stdpp Require Import gmap strings list.

Set Default Proof Using "Type".
Set Warnings "-register-all".
Local Open Scope string_scope.

(** ** Geometry containers *)

(** C++ [double]: an IEEE-754 binary64 value. *)
Definition double : Type := PrimFloat.float.

Definition Vector3d : Type := double * double * double.
Definition Vector3i : Type := Z * Z * Z.
Definition Vector2i : Type := Z * Z.
Definition Matrix : Type := list (list double).

(** Modelled from the spec: the container classes ([geometry::Image],
    [geometry::PointCloud], ... of the headers included at lines 32-42) are
    not among the sources.  Each record carries the essential attributes of
    the data-model table (section 3). *)
Record Image := {
  width_ : Z; height_ : Z; num_of_channels_ : Z; bytes_per_channel_ : Z;
  data_ : list Byte.byte }.

Record LineSet := {
  ls_points_ : list Vector3d; lines_ : list Vector2i }.

Record PointCloud := {
  points_ : list Vector3d; normals_ : list Vector3d; colors_ : list Vector3d }.

Record TriangleMesh := {
  vertices_ : list Vector3d; triangles_ : list Vector3i;
  vertex_normals_ : list Vector3d; vertex_colors_ : list Vector3d }.

Record VoxelGrid := {
  voxel_size_ : double; origin_ : Vector3d;
  voxels_ : list (Vector3i * option Vector3d) }.

Record PinholeCameraIntrinsic := {
  focal_length_ : double * double; principal_point_ : double * double;
  intrinsic_width_ : Z; intrinsic_height_ : Z }.

Record PinholeCameraParameters := {
  intrinsic_ : PinholeCameraIntrinsic; extrinsic_ : Matrix }.

Record PinholeCameraTrajectory := {
  parameters_ : list PinholeCameraParameters }.

Record Feature := { feature_data_ : list (list double) }.

Record PoseGraphEdge := {
  source_node_id_ : Z; target_node_id_ : Z;
  transformation_ : Matrix; information_ : Matrix; uncertain_ : bool }.

Record PoseGraph := {
  nodes_ : list Matrix; edges_ : list PoseGraphEdge }.

(** The ten kinds of section 6 of the specification. *)
Inductive Kind :=
| KImage | KLineSet | KPointCloud | KTriangleMesh | KVoxelGrid
| KPinholeCameraIntrinsic | KPinholeCameraParameters
| KPinholeCameraTrajectory | KFeature | KPoseGraph.

#[global] Instance Kind_eq_dec : EqDecision Kind.
Proof. solve_decision. Defined.

Definition entity (k : Kind) : Type :=
  match k with
  | KImage => Image
  | KLineSet => LineSet
  | KPointCloud => PointCloud
  | KTriangleMesh => TriangleMesh
  | KVoxelGrid => VoxelGrid
  | KPinholeCameraIntrinsic => PinholeCameraIntrinsic
  | KPinholeCameraParameters => PinholeCameraParameters
  | KPinholeCameraTrajectory => PinholeCameraTrajectory
  | KFeature => Feature
  | KPoseGraph => PoseGraph
  end.

Definition zero3 : Vector3d := (PrimFloat.zero, PrimFloat.zero, PrimFloat.zero).

Definition default_intrinsic : PinholeCameraIntrinsic :=
  {| focal_length_ := (PrimFloat.zero, PrimFloat.zero);
     principal_point_ := (PrimFloat.zero, PrimFloat.zero);
     intrinsic_width_ := 0; intrinsic_height_ := 0 |}.

(** Modelled from the spec: [T x;], the default constructor of each
    container (the classes are not among the sources).  Section 4.5 calls a
    default-constructed entity empty: every sequence is empty.  The spec
    fixes no scalar of a fresh entity; zero is taken, and no property below
    depends on that choice. *)
Definition default_entity (k : Kind) : entity k :=
  match k with
  | KImage =>
      {| width_ := 0; height_ := 0; num_of_channels_ := 0;
         bytes_per_channel_ := 0; data_ := [] |}
  | KLineSet => {| ls_points_ := []; lines_ := [] |}
  | KPointCloud => {| points_ := []; normals_ := []; colors_ := [] |}
  | KTriangleMesh =>
      {| vertices_ := []; triangles_ := [];
         vertex_normals_ := []; vertex_colors_ := [] |}
  | KVoxelGrid =>
      {| voxel_size_ := PrimFloat.zero; origin_ := zero3; voxels_ := [] |}
  | KPinholeCameraIntrinsic => default_intrinsic
  | KPinholeCameraParameters =>
      {| intrinsic_ := default_intrinsic; extrinsic_ := [] |}
  | KPinholeCameraTrajectory => {| parameters_ := [] |}
  | KFeature => {| feature_data_ := [] |}
  | KPoseGraph => {| nodes_ := []; edges_ := [] |}
  end.

(** An object of any of the ten classes, as the Python heap holds it. *)
Definition Entity : Type := { k : Kind & entity k }.

Definition as_kind (k : Kind) (e : Entity) : option (entity k) :=
  match decide (projT1 e = k) with
  | left H => Some (eq_rect (projT1 e) entity (projT2 e) k H)
  | right _ => None
  end.

(** ** The file system and the native I/O interface *)

Definition bytes : Type := list Byte.byte.

(** Path to content; a path that is not in the map does not exist. *)
Abbreviation FS := (gmap string bytes).

(** Computations of the lambdas: they read and write files, nothing else. *)
Definition IO (A : Type) : Type := FS -> A * FS.

#[global] Instance IO_ret : MRet IO := fun A x fs => (x, fs).
#[global] Instance IO_bind : MBind IO :=
  fun A B f m fs => let '(x, fs') := m fs in f x fs'.

(** A call [io::ReadX(filename, x, ...)]: [x] is passed by non-const
    reference, so the callee returns its flag and the new value of [x];
    reading leaves the files as they are. *)
Definition by_ref {E : Type} (rd : FS -> bool * E) : IO (bool * E) :=
  fun fs => (rd fs, fs).

(** The two classes handed to [ReadIJsonConvertible] / [WriteIJsonConvertible]
    through their [utility::IJsonConvertible] base. *)
Inductive JsonClass := JIntrinsic | JParameters.

Definition json_kind (c : JsonClass) : Kind :=
  match c with
  | JIntrinsic => KPinholeCameraIntrinsic
  | JParameters => KPinholeCameraParameters
  end.

(** The functions of namespace [io] that io.cpp calls, declared in the
    [Open3D/IO/ClassIO/*.h] headers (not among the sources), with the
    argument lists of the calls.  A reader takes the entity by reference and
    returns its success flag with the entity as it left it; a writer takes
    the entity by const reference and returns its flag with the new files.
    As section 4.5 of the specification has it, they report format and IO
    problems through the flag and do not throw. *)
Record NativeIO := {
  ReadImage : string -> Image -> FS -> bool * Image;
  WriteImage : string -> Image -> Z -> IO bool;
  ReadLineSet : string -> LineSet -> string -> FS -> bool * LineSet;
  WriteLineSet : string -> LineSet -> bool -> bool -> IO bool;
  ReadPointCloud :
    string -> PointCloud -> string -> bool -> bool -> FS -> bool * PointCloud;
  WritePointCloud : string -> PointCloud -> bool -> bool -> IO bool;
  ReadTriangleMesh : string -> TriangleMesh -> FS -> bool * TriangleMesh;
  WriteTriangleMesh :
    string -> TriangleMesh -> bool -> bool -> bool -> bool -> IO bool;
  ReadVoxelGrid : string -> VoxelGrid -> string -> FS -> bool * VoxelGrid;
  WriteVoxelGrid : string -> VoxelGrid -> bool -> bool -> IO bool;
  ReadIJsonConvertible :
    forall c : JsonClass,
      string -> entity (json_kind c) -> FS -> bool * entity (json_kind c);
  WriteIJsonConvertible :
    forall c : JsonClass, string -> entity (json_kind c) -> IO bool;
  ReadPinholeCameraTrajectory :
    string -> PinholeCameraTrajectory -> FS -> bool * PinholeCameraTrajectory;
  WritePinholeCameraTrajectory : string -> PinholeCameraTrajectory -> IO bool;
  ReadFeature : string -> Feature -> FS -> bool * Feature;
  WriteFeature : string -> Feature -> IO bool;
  ReadPoseGraph : string -> PoseGraph -> FS -> bool * PoseGraph;
  WritePoseGraph : string -> PoseGraph -> IO bool }.

(** ** Python values and pybind11 function calls *)

(** The Python values that occur as arguments and results of the twenty
    functions; a bound C++ object is known by its place in the heap. *)
Inductive PyValue :=
| PyNone
| PyBool (b : bool)
| PyInt (z : Z)
| PyStr (s : string)
| PyObj (l : nat)                 (* reference to a bound C++ object *)
| PyTuple (vs : list PyValue).

Inductive PyExc := TypeError | AttributeError.

Inductive Outcome := Returned (v : PyValue) | Raised (e : PyExc).

(** The interpreter state a call can see: the bound objects, by reference,
    and the files. *)
Record World := { heap : list Entity; files : FS }.

Definition alloc (e : Entity) (w : World) : World :=
  {| heap := heap w ++ [e]; files := files w |}.

(** Parameter types of the lambdas. *)
Inductive ArgType :=
| TString                       (* const std::string & *)
| TBool                         (* bool *)
| TInt                          (* int *)
| TConstRef (k : Kind)          (* const T & *)
| TByValue (k : Kind).          (* const T *)

Definition cpp (t : ArgType) : Type :=
  match t with
  | TString => string
  | TBool => bool
  | TInt => Z
  | TConstRef k | TByValue k => entity k
  end.

(** Return types of the lambdas. *)
Inductive RetType := RVoid | RBool | RObject (k : Kind).

Definition cpp_ret (r : RetType) : Type :=
  match r with
  | RVoid => unit
  | RBool => bool
  | RObject k => entity k
  end.

Fixpoint arrow (sig : list ArgType) (R : Type) : Type :=
  match sig with
  | [] => R
  | t :: sig' => cpp t -> arrow sig' R
  end.

(** ["name"_a] and ["name"_a = value]. *)
Record Arg := { arg_name : string; arg_default : option PyValue }.

Definition _a (name : string) : Arg :=
  {| arg_name := name; arg_default := None |}.
Definition _a_eq (name : string) (v : PyValue) : Arg :=
  {| arg_name := name; arg_default := Some v |}.

(** One [m_io.def(name, lambda, doc, args...)]. *)
Record Function := {
  fn_name : string;
  fn_sig : list ArgType;
  fn_ret : RetType;
  fn_impl : NativeIO -> arrow fn_sig (IO (cpp_ret fn_ret));
  fn_doc : string;
  fn_args : list Arg }.

Definition def (name : string) (sig : list ArgType) (ret : RetType)
    (impl : NativeIO -> arrow sig (IO (cpp_ret ret)))
    (doc : string) (args : list Arg) : Function :=
  {| fn_name := name; fn_sig := sig; fn_ret := ret; fn_impl := impl;
     fn_doc := doc; fn_args := args |}.

(** [int] is 32 bits wide. *)
Definition int_range (z : Z) : bool :=
  ((-2147483648 <=? z) && (z <=? 2147483647))%Z.

(** pybind11's type casters, with implicit conversion enabled (the second
    dispatch pass): [bool] takes [True], [False], [None] and objects with
    [__bool__] (here: integers); [int] takes integers (booleans included)
    that fit; [std::string] takes [str]; a class reference takes an
    instance of that class. *)
Definition cast (h : list Entity) (t : ArgType) : PyValue -> option (cpp t) :=
  match t with
  | TString => fun v => match v with PyStr s => Some s | _ => None end
  | TBool => fun v =>
      match v with
      | PyBool b => Some b
      | PyNone => Some false
      | PyInt z => Some (negb (z =? 0)%Z)
      | _ => None
      end
  | TInt => fun v =>
      match v with
      | PyInt z => if int_range z then Some z else None
      | PyBool b => Some (if b then 1%Z else 0%Z)
      | _ => None
      end
  | TConstRef k | TByValue k => fun v =>
      match v with
      | PyObj l => h !! l ≫= as_kind k
      | _ => None
      end
  end.

(** Matching the call's arguments against the declared ones: positional
    values first, then keywords, then defaults; a missing argument without
    default, a surplus positional value or an unconsumed keyword (the
    functions take no variadic keywords) rejects the call. *)
Fixpoint bind_args (args : list Arg) (pos : list PyValue)
    (kw : gmap string PyValue) : option (list PyValue) :=
  match args with
  | [] =>
      match pos with
      | [] => if decide (size kw = 0) then Some [] else None
      | _ :: _ => None
      end
  | a :: args' =>
      match pos with
      | v :: pos' => cons v <$> bind_args args' pos' kw
      | [] =>
          match kw !! arg_name a with
          | Some v => cons v <$> bind_args args' [] (delete (arg_name a) kw)
          | None =>
              match arg_default a with
              | Some d => cons d <$> bind_args args' [] kw
              | None => None
              end
          end
      end
  end.

(** Converting the bound values and applying the lambda to them. *)
Fixpoint invoke {R : Type} (h : list Entity) (sig : list ArgType)
    : arrow sig R -> list PyValue -> option R :=
  match sig with
  | [] => fun f vs => match vs with [] => Some f | _ :: _ => None end
  | t :: sig' => fun f vs =>
      match vs with
      | [] => None
      | v :: vs' =>
          match cast h t v with
          | Some x => invoke h sig' (f x) vs'
          | None => None
          end
      end
  end.

(** The lambda's result handed back to Python; an object returned by value
    becomes a new bound object. *)
Definition to_python (r : RetType) : cpp_ret r -> World -> Outcome * World :=
  match r with
  | RVoid => fun _ w => (Returned PyNone, w)
  | RBool => fun b w => (Returned (PyBool b), w)
  | RObject k => fun e w =>
      (Returned (PyObj (length (heap w))), alloc (existT k e) w)
  end.

Definition lookup_def (m : list Function) (name : string) : option Function :=
  find (fun f => String.eqb (fn_name f) name) m.

Definition call_function (io : NativeIO) (f : Function)
    (pos : list PyValue) (kw : gmap string PyValue) (w : World)
    : Outcome * World :=
  match bind_args (fn_args f) pos kw with
  | None => (Raised TypeError, w)
  | Some vs =>
      match invoke (heap w) (fn_sig f) (fn_impl f io) vs with
      | None => (Raised TypeError, w)
      | Some body =>
          let '(r, fs') := body (files w) in
          to_python (fn_ret f) r {| heap := heap w; files := fs' |}
      end
  end.

(** A call of the attribute [name] of a module [m], with positional and
    keyword arguments. *)
Definition call (io : NativeIO) (m : list Function) (name : string)
    (pos : list PyValue) (kw : gmap string PyValue) (w : World)
    : Outcome * World :=
  match lookup_def m name with
  | None => (Raised AttributeError, w)
  | Some f => call_function io f pos kw w
  end.

(** ** The shared argument docstrings *)

(** The initializer list of [map_shared_argument_docstrings] (lines 48-86),
    in the order written. *)
Definition shared_argument_docstrings : list (string * string) := [
  ("filename", "Path to file.");
  (* Write options *)
  ("compressed", "Set to ``True`` to write in compressed format.");
  ("format",
   "The format of the input file. When not specified or set as ``auto``, the format is inferred from file extension name.");
  ("remove_nan_points",
   "If true, all points that include a NaN are removed from the PointCloud.");
  ("remove_infinite_points",
   "If true, all points that include an infinite value are removed from the PointCloud.");
  ("quality", "Quality of the output file.");
  ("write_ascii",
   "Set to ``True`` to output in ascii format, otherwise binary format will be used.");
  ("write_vertex_normals",
   "Set to ``False`` to not write any vertex normals, even if present on the mesh");
  ("write_vertex_colors",
   "Set to ``False`` to not write any vertex colors, even if present on the mesh");
  (* Entities *)
  ("pointcloud", "The ``PointCloud`` object for I/O");
  ("mesh", "The ``TriangleMesh`` object for I/O");
  ("line_set", "The ``LineSet`` object for I/O");
  ("image", "The ``Image`` object for I/O");
  ("voxel_grid", "The ``VoxelGrid`` object for I/O");
  ("trajectory", "The ``PinholeCameraTrajectory`` object for I/O");
  ("intrinsic", "The ``PinholeCameraIntrinsic`` object for I/O");
  ("parameters", "The ``PinholeCameraParameters`` object for I/O");
  ("pose_graph", "The ``PoseGraph`` object for I/O");
  ("feature", "The ``Feature`` object for I/O")
].

(** The [std::unordered_map] built from that list: of two entries with one
    key the constructor keeps the first. *)
Definition map_shared_argument_docstrings : gmap string string :=
  list_to_map shared_argument_docstrings.

(** ** The lambdas of [pybind_io] *)

Section Lambdas.
Variable io : NativeIO.

(* open3d::geometry::Image *)
Definition read_image (filename : string) : IO Image :=
  let image := default_entity KImage in
  '(_, image) ← by_ref (ReadImage io filename image);
  mret image.

Definition write_image (filename : string) (image : Image) (quality : Z)
    : IO bool :=
  WriteImage io filename image quality.

(* open3d::geometry::LineSet *)
Definition read_line_set (filename : string) (format : string) : IO LineSet :=
  let line_set := default_entity KLineSet in
  '(_, line_set) ← by_ref (ReadLineSet io filename line_set format);
  mret line_set.

Definition write_line_set (filename : string) (line_set : LineSet)
    (write_ascii compressed : bool) : IO bool :=
  WriteLineSet io filename line_set write_ascii compressed.

(* open3d::geometry::PointCloud *)
Definition read_point_cloud (filename : string) (format : string)
    (remove_nan_points remove_infinite_points : bool) : IO PointCloud :=
  let pcd := default_entity KPointCloud in
  '(_, pcd) ← by_ref (ReadPointCloud io filename pcd format
                        remove_nan_points remove_infinite_points);
  mret pcd.

Definition write_point_cloud (filename : string) (pointcloud : PointCloud)
    (write_ascii compressed : bool) : IO bool :=
  WritePointCloud io filename pointcloud write_ascii compressed.

(* open3d::geometry::TriangleMesh *)
Definition read_triangle_mesh (filename : string) : IO TriangleMesh :=
  let mesh := default_entity KTriangleMesh in
  '(_, mesh) ← by_ref (ReadTriangleMesh io filename mesh);
  mret mesh.

Definition write_triangle_mesh (filename : string) (mesh : TriangleMesh)
    (write_ascii compressed write_vertex_normals write_vertex_colors : bool)
    : IO bool :=
  WriteTriangleMesh io filename mesh write_ascii compressed
    write_vertex_normals write_vertex_colors.

(* open3d::geometry::VoxelGrid *)
Definition read_voxel_grid (filename : string) (format : string)
    : IO VoxelGrid :=
  let voxel_grid := default_entity KVoxelGrid in
  '(_, voxel_grid) ← by_ref (ReadVoxelGrid io filename voxel_grid format);
  mret voxel_grid.

Definition write_voxel_grid (filename : string) (voxel_grid : VoxelGrid)
    (write_ascii compressed : bool) : IO bool :=
  WriteVoxelGrid io filename voxel_grid write_ascii compressed.

(* open3d::camera *)
Definition read_pinhole_camera_intrinsic (filename : string)
    : IO PinholeCameraIntrinsic :=
  let intrinsic := default_entity KPinholeCameraIntrinsic in
  '(_, intrinsic) ←
    by_ref (ReadIJsonConvertible io JIntrinsic filename intrinsic);
  mret intrinsic.

Definition write_pinhole_camera_intrinsic (filename : string)
    (intrinsic : PinholeCameraIntrinsic) : IO bool :=
  WriteIJsonConvertible io JIntrinsic filename intrinsic.

Definition read_pinhole_camera_parameters (filename : string)
    : IO PinholeCameraParameters :=
  let parameters := default_entity KPinholeCameraParameters in
  '(_, parameters) ←
    by_ref (ReadIJsonConvertible io JParameters filename parameters);
  mret parameters.

Definition write_pinhole_camera_parameters (filename : string)
    (parameters : PinholeCameraParameters) : IO bool :=
  WriteIJsonConvertible io JParameters filename parameters.

Definition read_pinhole_camera_trajectory (filename : string)
    : IO PinholeCameraTrajectory :=
  let trajectory := default_entity KPinholeCameraTrajectory in
  '(_, trajectory) ←
    by_ref (ReadPinholeCameraTrajectory io filename trajectory);
  mret trajectory.

Definition write_pinhole_camera_trajectory (filename : string)
    (trajectory : PinholeCameraTrajectory) : IO bool :=
  WritePinholeCameraTrajectory io filename trajectory.

(* open3d::registration *)
Definition read_feature (filename : string) : IO Feature :=
  let feature := default_entity KFeature in
  '(_, feature) ← by_ref (ReadFeature io filename feature);
  mret feature.

Definition write_feature (filename : string) (feature : Feature) : IO bool :=
  WriteFeature io filename feature.

Definition read_pose_graph (filename : string) : IO PoseGraph :=
  let pose_graph := default_entity KPoseGraph in
  '(_, pose_graph) ← by_ref (ReadPoseGraph io filename pose_graph);
  mret pose_graph.

(* no return statement: the lambda's return type is void *)
Definition write_pose_graph (filename : string) (pose_graph : PoseGraph)
    : IO unit :=
  _ ← WritePoseGraph io filename pose_graph;
  mret tt.
End Lambdas.

(** The registrations of [pybind_io], one definition for each
    [m_io.def(name, lambda, doc, args...)].  The
    [docstring::FunctionDocInject] calls only rewrite help texts and are left
    out. *)
Definition def_read_image : Function :=
  def "read_image" [TString] (RObject KImage) read_image
    "Function to read Image from file" [_a "filename"].

Definition def_write_image : Function :=
  def "write_image" [TString; TConstRef KImage; TInt] RBool write_image
    "Function to write Image to file"
    [_a "filename"; _a "image"; _a_eq "quality" (PyInt 90)].

Definition def_read_line_set : Function :=
  def "read_line_set" [TString; TString] (RObject KLineSet) read_line_set
    "Function to read LineSet from file"
    [_a "filename"; _a_eq "format" (PyStr "auto")].

Definition def_write_line_set : Function :=
  def "write_line_set" [TString; TConstRef KLineSet; TBool; TBool] RBool
    write_line_set
    "Function to write LineSet to file"
    [_a "filename"; _a "line_set"; _a_eq "write_ascii" (PyBool false);
     _a_eq "compressed" (PyBool false)].

Definition def_read_point_cloud : Function :=
  def "read_point_cloud" [TString; TString; TBool; TBool]
    (RObject KPointCloud) read_point_cloud
    "Function to read PointCloud from file"
    [_a "filename"; _a_eq "format" (PyStr "auto");
     _a_eq "remove_nan_points" (PyBool true);
     _a_eq "remove_infinite_points" (PyBool true)].

Definition def_write_point_cloud : Function :=
  def "write_point_cloud" [TString; TConstRef KPointCloud; TBool; TBool] RBool
    write_point_cloud
    "Function to write PointCloud to file"
    [_a "filename"; _a "pointcloud"; _a_eq "write_ascii" (PyBool false);
     _a_eq "compressed" (PyBool false)].

Definition def_read_triangle_mesh : Function :=
  def "read_triangle_mesh" [TString] (RObject KTriangleMesh)
    read_triangle_mesh
    "Function to read TriangleMesh from file" [_a "filename"].

Definition def_write_triangle_mesh : Function :=
  def "write_triangle_mesh"
    [TString; TConstRef KTriangleMesh; TBool; TBool; TBool; TBool] RBool
    write_triangle_mesh
    "Function to write TriangleMesh to file"
    [_a "filename"; _a "mesh"; _a_eq "write_ascii" (PyBool false);
     _a_eq "compressed" (PyBool false);
     _a_eq "write_vertex_normals" (PyBool true);
     _a_eq "write_vertex_colors" (PyBool true)].

Definition def_read_voxel_grid : Function :=
  def "read_voxel_grid" [TString; TString] (RObject KVoxelGrid)
    read_voxel_grid
    "Function to read VoxelGrid from file"
    [_a "filename"; _a_eq "format" (PyStr "auto")].

Definition def_write_voxel_grid : Function :=
  def "write_voxel_grid" [TString; TConstRef KVoxelGrid; TBool; TBool] RBool
    write_voxel_grid
    "Function to write VoxelGrid to file"
    [_a "filename"; _a "voxel_grid"; _a_eq "write_ascii" (PyBool false);
     _a_eq "compressed" (PyBool false)].

Definition def_read_pinhole_camera_intrinsic : Function :=
  def "read_pinhole_camera_intrinsic" [TString]
    (RObject KPinholeCameraIntrinsic) read_pinhole_camera_intrinsic
    "Function to read PinholeCameraIntrinsic from file" [_a "filename"].

Definition def_write_pinhole_camera_intrinsic : Function :=
  def "write_pinhole_camera_intrinsic"
    [TString; TConstRef KPinholeCameraIntrinsic] RBool
    write_pinhole_camera_intrinsic
    "Function to write PinholeCameraIntrinsic to file"
    [_a "filename"; _a "intrinsic"].

Definition def_read_pinhole_camera_parameters : Function :=
  def "read_pinhole_camera_parameters" [TString]
    (RObject KPinholeCameraParameters) read_pinhole_camera_parameters
    "Function to read PinholeCameraParameters from file" [_a "filename"].

Definition def_write_pinhole_camera_parameters : Function :=
  def "write_pinhole_camera_parameters"
    [TString; TConstRef KPinholeCameraParameters] RBool
    write_pinhole_camera_parameters
    "Function to write PinholeCameraParameters to file"
    [_a "filename"; _a "parameters"].

Definition def_read_pinhole_camera_trajectory : Function :=
  def "read_pinhole_camera_trajectory" [TString]
    (RObject KPinholeCameraTrajectory) read_pinhole_camera_trajectory
    "Function to read PinholeCameraTrajectory from file" [_a "filename"].

Definition def_write_pinhole_camera_trajectory : Function :=
  def "write_pinhole_camera_trajectory"
    [TString; TConstRef KPinholeCameraTrajectory] RBool
    write_pinhole_camera_trajectory
    "Function to write PinholeCameraTrajectory to file"
    [_a "filename"; _a "trajectory"].

Definition def_read_feature : Function :=
  def "read_feature" [TString] (RObject KFeature) read_feature
    "Function to read registration.Feature from file" [_a "filename"].

Definition def_write_feature : Function :=
  def "write_feature" [TString; TConstRef KFeature] RBool write_feature
    "Function to write Feature to file" [_a "filename"; _a "feature"].

Definition def_read_pose_graph : Function :=
  def "read_pose_graph" [TString] (RObject KPoseGraph) read_pose_graph
    "Function to read PoseGraph from file" [_a "filename"].

Definition def_write_pose_graph : Function :=
  def "write_pose_graph" [TString; TByValue KPoseGraph] RVoid write_pose_graph
    "Function to write PoseGraph to file" [_a "filename"; _a "pose_graph"].

(** The submodule [io] as [pybind_io] fills it, in registration order. *)
Definition pybind_io : list Function := [
  def_read_image; def_write_image;
  def_read_line_set; def_write_line_set;
  def_read_point_cloud; def_write_point_cloud;
  def_read_triangle_mesh; def_write_triangle_mesh;
  def_read_voxel_grid; def_write_voxel_grid;
  def_read_pinhole_camera_intrinsic; def_write_pinhole_camera_intrinsic;
  def_read_pinhole_camera_parameters; def_write_pinhole_camera_parameters;
  def_read_pinhole_camera_trajectory; def_write_pinhole_camera_trajectory;
  def_read_feature; def_write_feature;
  def_read_pose_graph; def_write_pose_graph
].

(** [open3d.io.name(...)]. *)
Definition io_call (io : NativeIO) (name : string) (pos : list PyValue)
    (kw : gmap string PyValue) (w : World) : Outcome * World :=
  call io pybind_io name pos kw w.

(** The read and write function of each kind. *)
Definition kind_name (k : Kind) : string :=
  match k with
  | KImage => "image"
  | KLineSet => "line_set"
  | KPointCloud => "point_cloud"
  | KTriangleMesh => "triangle_mesh"
  | KVoxelGrid => "voxel_grid"
  | KPinholeCameraIntrinsic => "pinhole_camera_intrinsic"
  | KPinholeCameraParameters => "pinhole_camera_parameters"
  | KPinholeCameraTrajectory => "pinhole_camera_trajectory"
  | KFeature => "feature"
  | KPoseGraph => "pose_graph"
  end.

Definition read_name (k : Kind) : string := "read_" ++ kind_name k.
Definition write_name (k : Kind) : string := "write_" ++ kind_name k.

Definition read_def (k : Kind) : Function :=
  match k with
  | KImage => def_read_image
  | KLineSet => def_read_line_set
  | KPointCloud => def_read_point_cloud
  | KTriangleMesh => def_read_triangle_mesh
  | KVoxelGrid => def_read_voxel_grid
  | KPinholeCameraIntrinsic => def_read_pinhole_camera_intrinsic
  | KPinholeCameraParameters => def_read_pinhole_camera_parameters
  | KPinholeCameraTrajectory => def_read_pinhole_camera_trajectory
  | KFeature => def_read_feature
  | KPoseGraph => def_read_pose_graph
  end.

Definition write_def (k : Kind) : Function :=
  match k with
  | KImage => def_write_image
  | KLineSet => def_write_line_set
  | KPointCloud => def_write_point_cloud
  | KTriangleMesh => def_write_triangle_mesh
  | KVoxelGrid => def_write_voxel_grid
  | KPinholeCameraIntrinsic => def_write_pinhole_camera_intrinsic
  | KPinholeCameraParameters => def_write_pinhole_camera_parameters
  | KPinholeCameraTrajectory => def_write_pinhole_camera_trajectory
  | KFeature => def_write_feature
  | KPoseGraph => def_write_pose_graph
  end.

(** ** The format-dispatch core

    The functions behind [NativeIO] live in [Open3D/IO/ClassIO], which is not
    among the sources; this part follows section 4 of the specification. *)

(** *** Validation/Filter stage (section 4.4) *)

(** Modelled from the spec: a point "containing NaN in any coordinate",
    and one "containing infinite values". *)
Definition has_nan (p : Vector3d) : bool :=
  let '(x, y, z) := p in
  PrimFloat.is_nan x || PrimFloat.is_nan y || PrimFloat.is_nan z.

Definition has_infinite (p : Vector3d) : bool :=
  let '(x, y, z) := p in
  PrimFloat.is_infinity x || PrimFloat.is_infinity y
  || PrimFloat.is_infinity z.

(** Modelled from the spec: removal "at the same indices".  The entries of
    [l] at the indices the mask keeps; an index past the end of the mask
    belongs to no point and is left alone. *)
Fixpoint select {A : Type} (mask : list bool) (l : list A) : list A :=
  match mask, l with
  | _, [] => []
  | [], _ :: _ => l
  | b :: mask', x :: l' =>
      if b then x :: select mask' l' else select mask' l'
  end.

(** Modelled from the spec: the point-removal step of the filter stage
    ([PointCloud] and its methods are not among the sources).  The points
    for which [bad] holds go, and the entries of the parallel normal and
    color sequences go at the same indices. *)
Definition remove_points (bad : Vector3d -> bool) (pc : PointCloud)
    : PointCloud :=
  let keep := map (fun p => negb (bad p)) (points_ pc) in
  {| points_ := select keep (points_ pc);
     normals_ := select keep (normals_ pc);
     colors_ := select keep (colors_ pc) |}.

(** Modelled from the spec: the two filter options of a point-cloud read. *)
Record FilterOptions := {
  remove_nan_points : bool; remove_infinite_points : bool }.

(** Modelled from the spec: the filter stage of section 4.4 -- NaN removal
    if requested, then removal of infinite points if requested. *)
Definition filter_stage (f : FilterOptions) (pc : PointCloud) : PointCloud :=
  let pc1 := if remove_nan_points f then remove_points has_nan pc else pc in
  if remove_infinite_points f then remove_points has_infinite pc1 else pc1.


(** Modelled from the spec: the post-decode stage of the read facade; only
    point clouds are filtered. *)
Definition validate (k : Kind) (f : FilterOptions) : entity k -> entity k :=
  match k with
  | KPointCloud => filter_stage f
  | _ => fun e => e
  end.



(** Modelled from the spec: "length == points length, or empty", and an
    index below the vertex count (data-model table, section 3). *)
Definition parallel {A B : Type} (attr : list A) (base : list B) : bool :=
  Nat.eqb (length attr) 0 || Nat.eqb (length attr) (length base).

Definition index_ok (n : nat) (i : Z) : bool :=
  ((0 <=? i) && (i <? Z.of_nat n))%Z.

(** Modelled from the spec: the entity invariants whose violation the
    facade reports as [ShapeMismatch]. *)
Definition invariant (k : Kind) : entity k -> bool :=
  match k with
  | KPointCloud => fun pc =>
      parallel (normals_ pc) (points_ pc) && parallel (colors_ pc) (points_ pc)
  | KTriangleMesh => fun m =>
      forallb (fun '(a, b, c) =>
                 index_ok (length (vertices_ m)) a
                 && index_ok (length (vertices_ m)) b
                 && index_ok (length (vertices_ m)) c) (triangles_ m)
  | KLineSet => fun ls =>
      forallb (fun '(a, b) =>
                 index_ok (length (ls_points_ ls)) a
                 && index_ok (length (ls_points_ ls)) b) (lines_ ls)
  | KVoxelGrid => fun g => PrimFloat.ltb PrimFloat.zero (voxel_size_ g)
  | KImage => fun i =>
      (Z.of_nat (length (data_ i))
       =? width_ i * height_ i * num_of_channels_ i * bytes_per_channel_ i)%Z
  | KPoseGraph => fun g =>
      forallb (fun e =>
                 index_ok (length (nodes_ g)) (source_node_id_ e)
                 && index_ok (length (nodes_ g)) (target_node_id_ e))
              (edges_ g)
  | _ => fun _ => true
  end.

(** *** Extension Sniffer and Format Registry (sections 4.1, 4.2) *)

(** Modelled from the spec: the lower-case form of a tag or suffix. *)
Definition lower_ascii (c : ascii) : ascii :=
  let n := nat_of_ascii c in
  if Nat.leb 65 n && Nat.leb n 90 then ascii_of_nat (n + 32) else c.

Fixpoint lowercase (s : string) : string :=
  match s with
  | EmptyString => EmptyString
  | String c s' => String (lower_ascii c) (lowercase s')
  end.

(** Modelled from the spec: "the suffix after the last [.]", if the
    filename has a dot. *)
Fixpoint suffix_after_last_dot (s : string) : option string :=
  match s with
  | EmptyString => None
  | String c s' =>
      match suffix_after_last_dot s' with
      | Some e => Some e
      | None => if Ascii.eqb c "."%char then Some s' else None
      end
  end.

(** Modelled from the spec: the write-option set of section 4.6, with the
    image quality of section 6. *)
Record WriteOptions := {
  asciiMode : bool; compressed : bool;
  writeVertexNormals : bool; writeVertexColors : bool;
  quality : Z }.

(** Modelled from the spec: a codec of section 4.3.  [decode] fails on
    structurally invalid input ([ParseError]); every destination of this
    file system is writable, so [encode] always yields its bytes. *)
Record Codec (E : Type) := {
  decode : bytes -> option E;
  encode : E -> WriteOptions -> bytes }.
Arguments decode {E} _ _.
Arguments encode {E} _ _ _.

(** Modelled from the spec: the fixed table of (kind, tag) to codec
    bindings, tags in lower case, and each kind's default tag. *)
Record Registry := {
  codecs : forall k : Kind, list (string * Codec (entity k));
  default_tag : Kind -> string }.

(** Modelled from the spec: [codecFor] of section 4.1; lookup is
    case-insensitive on the tag. *)
Definition codecFor (R : Registry) (k : Kind) (formatTag : string)
    : option (Codec (entity k)) :=
  snd <$> find (fun tc => String.eqb (fst tc) (lowercase formatTag))
               (codecs R k).

(** Modelled from the spec: whether a suffix is "among the kind's known
    tags". *)
Definition known_tag (R : Registry) (k : Kind) (tag : string) : bool :=
  existsb (fun tc => String.eqb (fst tc) tag) (codecs R k).

(** Modelled from the spec: [sniff] of section 4.2; the extension is the
    sole signal, the file is never opened. *)
Definition sniff (R : Registry) (k : Kind) (filename : string) : string :=
  match suffix_after_last_dot filename with
  | Some ext =>
      if known_tag R k (lowercase ext) then lowercase ext else default_tag R k
  | None => default_tag R k
  end.

(** Modelled from the spec: the tag ["auto"] is resolved by the sniffer
    before lookup. *)
Definition resolve_format (R : Registry) (k : Kind) (filename formatTag : string)
    : string :=
  if String.eqb formatTag "auto" then sniff R k filename else formatTag.

(** *** Write-Option Resolver and Unified I/O Facade (sections 4.5, 4.6) *)

(** Modelled from the spec: optional attribute blocks are omitted entirely
    when their flag is false, even if the entity carries that data. *)
Definition omit_blocks (k : Kind) (o : WriteOptions) : entity k -> entity k :=
  match k with
  | KTriangleMesh => fun m =>
      {| vertices_ := vertices_ m; triangles_ := triangles_ m;
         vertex_normals_ :=
           if writeVertexNormals o then vertex_normals_ m else [];
         vertex_colors_ :=
           if writeVertexColors o then vertex_colors_ m else [] |}
  | _ => fun e => e
  end.

(** Modelled from the spec: the read facade.  A lookup failure
    ([UnsupportedFormat]), a missing file ([IOError]), a decoding failure
    ([ParseError]) or a broken invariant ([ShapeMismatch]) gives a
    default-constructed entity and false. *)
Definition facade_read (R : Registry) (k : Kind) (filename formatTag : string)
    (f : FilterOptions) (fs : FS) : bool * entity k :=
  match codecFor R k (resolve_format R k filename formatTag) with
  | None => (false, default_entity k)
  | Some c =>
      match fs !! filename with
      | None => (false, default_entity k)
      | Some bs =>
          match decode c bs with
          | None => (false, default_entity k)
          | Some e =>
              if invariant k e then (true, validate k f e)
              else (false, default_entity k)
          end
      end
  end.

(** Modelled from the spec: the write facade, same resolve-then-dispatch
    structure; a lookup failure returns false and writes nothing. *)
Definition facade_write (R : Registry) (k : Kind) (filename : string)
    (e : entity k) (formatTag : string) (o : WriteOptions) : IO bool :=
  fun fs =>
    match codecFor R k (resolve_format R k filename formatTag) with
    | None => (false, fs)
    | Some c => (true, <[filename := encode c (omit_blocks k o e) o]> fs)
    end.

(** Modelled from the spec: the options of a native function that takes
    none of its own -- no filtering on reads other than point clouds, and
    on writes the defaults of section 6. *)
Definition no_filter : FilterOptions :=
  {| remove_nan_points := false; remove_infinite_points := false |}.

Definition write_options (ascii_mode compressed normals colors : bool) (q : Z)
    : WriteOptions :=
  {| asciiMode := ascii_mode; compressed := compressed;
     writeVertexNormals := normals; writeVertexColors := colors;
     quality := q |}.

Definition plain_options : WriteOptions := write_options false false true true 90.

(** Modelled from the spec: the native functions as instances of the
    facade.  A function without format parameter detects the format from
    the extension; the entity handed to a reader is the caller's empty
    instance and is replaced by the facade's result. *)
Definition SpecIO (R : Registry) : NativeIO := {|
  ReadImage f _ := facade_read R KImage f "auto" no_filter;
  WriteImage f e q :=
    facade_write R KImage f e "auto" (write_options false false true true q);
  ReadLineSet f _ fmt := facade_read R KLineSet f fmt no_filter;
  WriteLineSet f e a c :=
    facade_write R KLineSet f e "auto" (write_options a c true true 90);
  ReadPointCloud f _ fmt rn ri :=
    facade_read R KPointCloud f fmt
      {| remove_nan_points := rn; remove_infinite_points := ri |};
  WritePointCloud f e a c :=
    facade_write R KPointCloud f e "auto" (write_options a c true true 90);
  ReadTriangleMesh f _ := facade_read R KTriangleMesh f "auto" no_filter;
  WriteTriangleMesh f e a c n col :=
    facade_write R KTriangleMesh f e "auto" (write_options a c n col 90);
  ReadVoxelGrid f _ fmt := facade_read R KVoxelGrid f fmt no_filter;
  WriteVoxelGrid f e a c :=
    facade_write R KVoxelGrid f e "auto" (write_options a c true true 90);
  ReadIJsonConvertible c f _ := facade_read R (json_kind c) f "auto" no_filter;
  WriteIJsonConvertible c f e :=
    facade_write R (json_kind c) f e "auto" plain_options;
  ReadPinholeCameraTrajectory f _ :=
    facade_read R KPinholeCameraTrajectory f "auto" no_filter;
  WritePinholeCameraTrajectory f e :=
    facade_write R KPinholeCameraTrajectory f e "auto" plain_options;
  ReadFeature f _ := facade_read R KFeature f "auto" no_filter;
  WriteFeature f e := facade_write R KFeature f e "auto" plain_options;
  ReadPoseGraph f _ := facade_read R KPoseGraph f "auto" no_filter;
  WritePoseGraph f e := facade_write R KPoseGraph f e "auto" plain_options
|}.

(** ** A raw layout for the examples

    Example data, not part of the program: a little-endian dump of a
    triangle mesh -- four 32-bit counts (vertices, normals, colors,
    triangles), then the vectors as binary64 triples and the triangles as
    32-bit index triples; a point cloud is dumped as a mesh without
    triangles.  The two codecs stand in for registered ones where an example
    needs the facade to find a codec; no property below is about them. *)
Module Raw.
Local Open Scope Z_scope.

Definition byte_of (z : Z) : Byte.byte :=
  default Byte.x00 (Byte.of_N (Z.to_N (z mod 256))).

Definition Z_of_byte (b : Byte.byte) : Z := Z.of_N (Byte.to_N b).

Fixpoint le_bytes (n : nat) (z : Z) : bytes :=
  match n with
  | O => []
  | S n' => byte_of z :: le_bytes n' (z / 256)
  end.

Fixpoint of_le_bytes (bs : bytes) : Z :=
  match bs with
  | [] => 0
  | b :: bs' => Z_of_byte b + 256 * of_le_bytes bs'
  end.

(** The binary64 bit pattern of a double and back. *)
Definition bits_of_double (x : double) : Z :=
  let sign (s : bool) : Z := if s then 2 ^ 63 else 0 in
  match Prim2SF x with
  | S754_zero s => sign s
  | S754_infinity s => sign s + 2047 * 2 ^ 52
  | S754_nan => 2047 * 2 ^ 52 + 2 ^ 51
  | S754_finite s m e =>
      if Z.pos m <? 2 ^ 52 then sign s + Z.pos m
      else sign s + (e + 1075) * 2 ^ 52 + (Z.pos m - 2 ^ 52)
  end.

Definition double_of_bits (z : Z) : double :=
  let s := Z.testbit z 63 in
  let e := (z / 2 ^ 52) mod 2048 in
  let m := z mod 2 ^ 52 in
  if e =? 2047 then
    if m =? 0 then SF2Prim (S754_infinity s) else SF2Prim S754_nan
  else if e =? 0 then
    match m with
    | Zpos p => SF2Prim (S754_finite s p (-1074))
    | _ => SF2Prim (S754_zero s)
    end
  else
    match m + 2 ^ 52 with
    | Zpos p => SF2Prim (S754_finite s p (e - 1075))
    | _ => SF2Prim (S754_zero s)
    end.

Definition put_u32 (z : Z) : bytes := le_bytes 4 z.
Definition put_f64 (x : double) : bytes := le_bytes 8 (bits_of_double x).
Definition put_vec3 (p : Vector3d) : bytes :=
  let '(x, y, z) := p in (put_f64 x ++ put_f64 y ++ put_f64 z)%list.
Definition put_tri (t : Vector3i) : bytes :=
  let '(a, b, c) := t in (put_u32 a ++ put_u32 b ++ put_u32 c)%list.

Definition get_u32 (bs : bytes) : option (Z * bytes) :=
  match bs with
  | b0 :: b1 :: b2 :: b3 :: rest => Some (of_le_bytes [b0; b1; b2; b3], rest)
  | _ => None
  end.

Definition get_f64 (bs : bytes) : option (double * bytes) :=
  match bs with
  | b0 :: b1 :: b2 :: b3 :: b4 :: b5 :: b6 :: b7 :: rest =>
      Some (double_of_bits (of_le_bytes [b0; b1; b2; b3; b4; b5; b6; b7]),
            rest)
  | _ => None
  end.

Definition get_vec3 (bs : bytes) : option (Vector3d * bytes) :=
  '(x, bs) ← get_f64 bs;
  '(y, bs) ← get_f64 bs;
  '(z, bs) ← get_f64 bs;
  Some ((x, y, z), bs).

Definition get_tri (bs : bytes) : option (Vector3i * bytes) :=
  '(a, bs) ← get_u32 bs;
  '(b, bs) ← get_u32 bs;
  '(c, bs) ← get_u32 bs;
  Some ((a, b, c), bs).

Fixpoint get_many {A : Type} (get : bytes -> option (A * bytes)) (n : nat)
    (bs : bytes) : option (list A * bytes) :=
  match n with
  | O => Some ([], bs)
  | S n' =>
      '(x, bs) ← get bs;
      '(xs, bs) ← get_many get n' bs;
      Some (x :: xs, bs)
  end.

Definition encode_mesh (m : TriangleMesh) : bytes :=
  (put_u32 (Z.of_nat (length (vertices_ m)))
   ++ put_u32 (Z.of_nat (length (vertex_normals_ m)))
   ++ put_u32 (Z.of_nat (length (vertex_colors_ m)))
   ++ put_u32 (Z.of_nat (length (triangles_ m)))
   ++ concat (map put_vec3 (vertices_ m))
   ++ concat (map put_vec3 (vertex_normals_ m))
   ++ concat (map put_vec3 (vertex_colors_ m))
   ++ concat (map put_tri (triangles_ m)))%list.

Definition decode_mesh (bs : bytes) : option TriangleMesh :=
  '(nv, bs) ← get_u32 bs;
  '(nn, bs) ← get_u32 bs;
  '(nc, bs) ← get_u32 bs;
  '(nt, bs) ← get_u32 bs;
  '(vs, bs) ← get_many get_vec3 (Z.to_nat nv) bs;
  '(ns, bs) ← get_many get_vec3 (Z.to_nat nn) bs;
  '(cs, bs) ← get_many get_vec3 (Z.to_nat nc) bs;
  '(ts, bs) ← get_many get_tri (Z.to_nat nt) bs;
  match bs with
  | [] =>
      Some {| vertices_ := vs; triangles_ := ts;
              vertex_normals_ := ns; vertex_colors_ := cs |}
  | _ :: _ => None
  end.

Definition mesh_codec : Codec TriangleMesh :=
  {| decode := decode_mesh; encode := fun m _ => encode_mesh m |}.

Definition mesh_of_cloud (pc : PointCloud) : TriangleMesh :=
  {| vertices_ := points_ pc; triangles_ := [];
     vertex_normals_ := normals_ pc; vertex_colors_ := colors_ pc |}.

Definition cloud_of_mesh (m : TriangleMesh) : option PointCloud :=
  match triangles_ m with
  | [] =>
      Some {| points_ := vertices_ m; normals_ := vertex_normals_ m;
              colors_ := vertex_colors_ m |}
  | _ :: _ => None
  end.

Definition cloud_codec : Codec PointCloud :=
  {| decode := fun bs => decode_mesh bs ≫= cloud_of_mesh;
     encode := fun pc _ => encode_mesh (mesh_of_cloud pc) |}.

(** A registry that knows these two codecs, under the tag [raw]. *)
Definition registry : Registry :=
  {| codecs := fun k =>
       match k return list (string * Codec (entity k)) with
       | KTriangleMesh => [("raw", mesh_codec)]
       | KPointCloud => [("raw", cloud_codec)]
       | _ => []
       end;
     default_tag := fun _ => "raw" |}.

(** A right triangle with a color at every vertex. *)
Definition triangle : TriangleMesh :=
  {| vertices_ := [(0, 0, 0); (1, 0, 0); (0, 1, 0)]%float;
     triangles_ := [(0, 1, 2)%Z];
     vertex_normals_ := [(0, 0, 1); (0, 0, 1); (0, 0, 1)]%float;
     vertex_colors_ := [(1, 0, 0); (0, 1, 0); (0, 0, 1)]%float |}.

(** Five points, one with a NaN and one with an infinite coordinate, and
    a normal for each. *)
Definition dirty_cloud : PointCloud :=
  {| points_ := [(0, 0, 0); (nan, 0, 0); (1, 1, 1); (0, infinity, 0);
                 (2, 2, 2)]%float;
     normals_ := [(0, 0, 1); (0, 1, 0); (1, 0, 0); (0, 1, 1);
                  (1, 1, 0)]%float;
     colors_ := [] |}.

Definition empty_world : World := {| heap := []; files := ∅ |}.

(** The triangle as the only bound object, no files. *)
Definition mesh_world : World :=
  alloc (existT KTriangleMesh triangle) empty_world.

(** The file [cloud.raw] holding the dump of [dirty_cloud]. *)
Definition cloud_world : World :=
  {| heap := [];
     files := {["cloud.raw" := encode cloud_codec dirty_cloud plain_options]} |}.

(** Writing the triangle to [triangle.raw] without its vertex colors. *)
Definition colorless_write : Outcome * World :=
  io_call (SpecIO registry) "write_triangle_mesh"
    [PyStr "triangle.raw"; PyObj 0; PyBool false; PyBool false;
     PyBool true; PyBool false] ∅ mesh_world.

End Raw.

(** ** Vocabulary of the properties *)

(** What the read lambda of kind [k] asks of the native library: the
    reader of that kind run on a default-constructed entity.  [format] and
    the two filter flags reach only the readers that take them. *)
Definition native_read (io : NativeIO) (k : Kind) (filename format : string)
    (rn ri : bool) (fs : FS) : bool * entity k :=
  match k with
  | KImage => ReadImage io filename (default_entity KImage) fs
  | KLineSet => ReadLineSet io filename (default_entity KLineSet) format fs
  | KPointCloud =>
      ReadPointCloud io filename (default_entity KPointCloud) format rn ri fs
  | KTriangleMesh =>
      ReadTriangleMesh io filename (default_entity KTriangleMesh) fs
  | KVoxelGrid =>
      ReadVoxelGrid io filename (default_entity KVoxelGrid) format fs
  | KPinholeCameraIntrinsic =>
      ReadIJsonConvertible io JIntrinsic filename
        (default_entity KPinholeCameraIntrinsic) fs
  | KPinholeCameraParameters =>
      ReadIJsonConvertible io JParameters filename
        (default_entity KPinholeCameraParameters) fs
  | KPinholeCameraTrajectory =>
      ReadPinholeCameraTrajectory io filename
        (default_entity KPinholeCameraTrajectory) fs
  | KFeature => ReadFeature io filename (default_entity KFeature) fs
  | KPoseGraph => ReadPoseGraph io filename (default_entity KPoseGraph) fs
  end.

(** What the write lambda of kind [k] asks of the native library: the
    writer of that kind on the entity, with the options it takes. *)
Definition native_write (io : NativeIO) (k : Kind) (filename : string)
    : entity k -> bool -> bool -> bool -> bool -> Z -> IO bool :=
  match k with
  | KImage => fun e _ _ _ _ q => WriteImage io filename e q
  | KLineSet => fun e a c _ _ _ => WriteLineSet io filename e a c
  | KPointCloud => fun e a c _ _ _ => WritePointCloud io filename e a c
  | KTriangleMesh => fun e a c n col _ =>
      WriteTriangleMesh io filename e a c n col
  | KVoxelGrid => fun e a c _ _ _ => WriteVoxelGrid io filename e a c
  | KPinholeCameraIntrinsic => fun e _ _ _ _ _ =>
      WriteIJsonConvertible io JIntrinsic filename e
  | KPinholeCameraParameters => fun e _ _ _ _ _ =>
      WriteIJsonConvertible io JParameters filename e
  | KPinholeCameraTrajectory => fun e _ _ _ _ _ =>
      WritePinholeCameraTrajectory io filename e
  | KFeature => fun e _ _ _ _ _ => WriteFeature io filename e
  | KPoseGraph => fun e _ _ _ _ _ => WritePoseGraph io filename e
  end.

(** The world after a read returned entity [e] of kind [k]. *)
Definition returned_object (k : Kind) (e : entity k) (w : World)
    : Outcome * World :=
  (Returned (PyObj (length (heap w))), alloc (existT k e) w).

(** The success flag a result hands to the caller, if it hands one: a
    boolean next to the entity, as in [(entity, False)]. *)
Definition result_flag (o : Outcome) : option bool :=
  match o with
  | Returned (PyTuple [_; PyBool b]) => Some b
  | _ => None
  end.

(** Whether a function declares the argument [format], a string with
    default ["auto"]. *)
Definition is_format_arg (at_ : Arg * ArgType) : bool :=
  String.eqb (arg_name at_.1) "format"
  && match at_.2 with TString => true | _ => false end
  && match arg_default at_.1 with
     | Some (PyStr s) => String.eqb s "auto"
     | _ => false
     end.

Definition takes_format (f : Function) : bool :=
  existsb is_format_arg (combine (fn_args f) (fn_sig f)).

(** The kinds whose read function is registered with a format argument. *)
Definition reads_with_format (k : Kind) : bool :=
  match k with
  | KLineSet | KPointCloud | KVoxelGrid => true
  | _ => false
  end.



(** The option values of an explicit positional call, after the filename
    (and the entity), for the functions that take options. *)
Definition read_option_args (k : Kind) (format : string) (rn ri : bool)
    : list PyValue :=
  match k with
  | KLineSet | KVoxelGrid => [PyStr format]
  | KPointCloud => [PyStr format; PyBool rn; PyBool ri]
  | _ => []
  end.

Definition write_option_args (k : Kind) (a c n col : bool) (q : Z)
    : list PyValue :=
  match k with
  | KImage => [PyInt q]
  | KLineSet | KPointCloud | KVoxelGrid => [PyBool a; PyBool c]
  | KTriangleMesh => [PyBool a; PyBool c; PyBool n; PyBool col]
  | _ => []
  end.

(** The same option values given by name. *)
Definition read_option_kw (k : Kind) (format : string) (rn ri : bool)
    : gmap string PyValue :=
  match k with
  | KLineSet | KVoxelGrid => {["format" := PyStr format]}
  | KPointCloud =>
      <["remove_infinite_points" := PyBool ri]>
        (<["format" := PyStr format]> {["remove_nan_points" := PyBool rn]})
  | _ => ∅
  end.

Definition write_option_kw (k : Kind) (a c n col : bool) (q : Z)
    : gmap string PyValue :=
  match k with
  | KImage => {["quality" := PyInt q]}
  | KLineSet | KPointCloud | KVoxelGrid =>
      <["compressed" := PyBool c]> {["write_ascii" := PyBool a]}
  | KTriangleMesh =>
      <["write_vertex_colors" := PyBool col]>
        (<["compressed" := PyBool c]>
           (<["write_vertex_normals" := PyBool n]>
              {["write_ascii" := PyBool a]}))
  | _ => ∅
  end.

(** What a write call hands back once the native writer returned [r]. *)
Definition write_result (k : Kind) (r : bool * FS) (w : World)
    : Outcome * World :=
  (Returned (if decide (k = KPoseGraph) then PyNone else PyBool r.1),
   {| heap := heap w; files := r.2 |}).

(** A call that was not rejected at argument binding or conversion. *)
Definition accepted (r : Outcome * World) : Prop := r.1 <> Raised TypeError.

(** ** Calls: general facts *)

Lemma lookup_read (k : Kind) :
  lookup_def pybind_io (read_name k) = Some (read_def k).
Proof. by destruct k. Qed.

Lemma lookup_write (k : Kind) :
  lookup_def pybind_io (write_name k) = Some (write_def k).
Proof. by destruct k. Qed.

(** An object converts to its own class. *)
Lemma as_kind_existT (k : Kind) (e : entity k) :
  as_kind k (existT k e) = Some e.
Proof.
  unfold as_kind; cbn. destruct (decide (k = k)) as [H|]; [|done].
  by rewrite (proof_irrel H eq_refl).
Qed.

(** Running argument binding on keywords that are empty or a singleton. *)
Ltac run_call :=
  repeat progress
    (cbn -[size empty lookup delete singletonM];
     rewrite ?lookup_empty, ?lookup_singleton_eq, ?delete_singleton_eq;
     try (rewrite lookup_singleton_ne by done);
     try (rewrite decide_True by apply map_size_empty)).

Section CallFacts.
Context (io : NativeIO).

(** A keyword that names no declared argument rejects the call. *)
Lemma bind_args_unknown_keyword (args : list Arg) (pos : list PyValue)
    (kw : gmap string PyValue) (key : string) (v : PyValue) :
  kw !! key = Some v ->
  key ∉ map arg_name args ->
  bind_args args pos kw = None.
Proof.
  revert pos kw.
  induction args as [|a args IH]; intros pos kw Hkey Hnot; simpl.
  - destruct pos; [|done].
    destruct (decide (size kw = 0)) as [Hsize|]; [|done].
    apply map_size_empty_iff in Hsize. subst kw.
    by rewrite lookup_empty in Hkey.
  - assert (key ≠ arg_name a) by (intros ->; apply Hnot; simpl; left).
    assert (key ∉ map arg_name args)
      by (intros Hin; apply Hnot; simpl; by right).
    destruct pos as [|p pos].
    + destruct (kw !! arg_name a).
      * rewrite IH; [done| |done]. by rewrite lookup_delete_ne.
      * destruct (arg_default a); [|done]. by rewrite IH.
    + by rewrite IH.
Qed.

(** A call is rejected with [TypeError], leaving the world as it was, or
    runs the lambda on the converted arguments. *)
Lemma call_function_cases (f : Function) (pos : list PyValue)
    (kw : gmap string PyValue) (w : World) :
  call_function io f pos kw w = (Raised TypeError, w)
  \/ exists vs body,
      invoke (heap w) (fn_sig f) (fn_impl f io) vs = Some body
      /\ call_function io f pos kw w
         = to_python (fn_ret f) (body (files w)).1
             {| heap := heap w; files := (body (files w)).2 |}.
Proof.
  unfold call_function.
  destruct (bind_args _ _ _) as [vs|]; [|by left].
  destruct (invoke _ _ _ _) as [body|] eqn:Hinv; [|by left].
  right. exists vs, body. split; [done|].
  by destruct (body (files w)).
Qed.

(** A function that returns no object leaves the bound objects alone. *)
Lemma call_function_heap (f : Function) (pos : list PyValue)
    (kw : gmap string PyValue) (w : World) :
  (forall k, fn_ret f <> RObject k) ->
  heap (call_function io f pos kw w).2 = heap w.
Proof.
  intros Hret.
  destruct (call_function_cases f pos kw w) as [->|(vs & body & _ & ->)];
    [done|].
  destruct (fn_ret f) as [| |k]; [done|done|by destruct (Hret k)].
Qed.

(** ** The read lambdas *)

(** Calling a reader on a local and returning the local: the flag is
    bound to nothing. *)
Lemma by_ref_result {E : Type} (rd : FS -> bool * E) (fs : FS) :
  (by_ref rd ≫= (fun '(_, x) => mret x)) fs = ((rd fs).2, fs).
Proof.
  unfold by_ref, mbind, IO_bind, mret, IO_ret. by destruct (rd fs).
Qed.

Lemma read_lambda (k : Kind) (filename format : string) (rn ri : bool)
    (fs : FS) :
  match k return IO (entity k) with
  | KImage => read_image io filename
  | KLineSet => read_line_set io filename format
  | KPointCloud => read_point_cloud io filename format rn ri
  | KTriangleMesh => read_triangle_mesh io filename
  | KVoxelGrid => read_voxel_grid io filename format
  | KPinholeCameraIntrinsic => read_pinhole_camera_intrinsic io filename
  | KPinholeCameraParameters => read_pinhole_camera_parameters io filename
  | KPinholeCameraTrajectory => read_pinhole_camera_trajectory io filename
  | KFeature => read_feature io filename
  | KPoseGraph => read_pose_graph io filename
  end fs
  = ((native_read io k filename format rn ri fs).2, fs).
Proof. destruct k; apply by_ref_result. Qed.

(** [read_<kind>(filename)]: the entity the reader left, as a new object. *)
Lemma read_call (k : Kind) (filename : string) (w : World) :
  io_call io (read_name k) [PyStr filename] ∅ w
  = returned_object k
      (native_read io k filename "auto" true true (files w)).2 w.
Proof.
  unfold io_call, call. rewrite lookup_read.
  pose proof (read_lambda k filename "auto" true true (files w)) as Hbody.
  destruct k; unfold call_function; cbn [read_def] in *;
    run_call; by rewrite Hbody.
Qed.

(** Every call of a read function is rejected at argument binding or
    returns the reader's entity. *)
Lemma read_total (k : Kind) (pos : list PyValue)
    (kw : gmap string PyValue) (w : World) :
  io_call io (read_name k) pos kw w = (Raised TypeError, w)
  \/ exists filename format rn ri,
      io_call io (read_name k) pos kw w
      = returned_object k
          (native_read io k filename format rn ri (files w)).2 w.
Proof.
  unfold io_call, call. rewrite lookup_read.
  destruct (call_function_cases (read_def k) pos kw w)
    as [->|(vs & body & Hinv & ->)]; [by left|right].
  destruct k; cbn in Hinv; repeat case_match; simplify_eq;
    lazymatch goal with
    | |- context [read_point_cloud io ?f ?fmt ?rn ?ri] =>
        exists f, fmt, rn, ri;
        rewrite (read_lambda KPointCloud f fmt rn ri)
    | |- context [read_line_set io ?f ?fmt] =>
        exists f, fmt, true, true;
        rewrite (read_lambda KLineSet f fmt true true)
    | |- context [read_voxel_grid io ?f ?fmt] =>
        exists f, fmt, true, true;
        rewrite (read_lambda KVoxelGrid f fmt true true)
    | |- context [to_python (fn_ret (read_def ?k)) (?rd io ?f _).1] =>
        exists f, "auto", true, true;
        rewrite (read_lambda k f "auto" true true)
    end; done.
Qed.
End CallFacts.

(** ** Reads *)

(** C10: every [read_<kind>] default-constructs an entity, hands it to the
    native reader, drops the reader's flag and returns the entity as a new
    object: called with a filename it always returns the entity the reader
    left; any call at all is either rejected at argument binding or returns
    such an entity; and two reads that leave the same entity give the same
    result whatever their flags were. *)
Theorem read_returns_entity_unconditionally (io : NativeIO) (k : Kind) :
  (forall filename w,
     io_call io (read_name k) [PyStr filename] ∅ w
     = returned_object k
         (native_read io k filename "auto" true true (files w)).2 w)
  /\ (forall pos kw w,
        io_call io (read_name k) pos kw w = (Raised TypeError, w)
        \/ exists filename format rn ri,
            io_call io (read_name k) pos kw w
            = returned_object k
                (native_read io k filename format rn ri (files w)).2 w)
  /\ (forall io' filename filename' w w',
        heap w = heap w' ->
        (native_read io k filename "auto" true true (files w)).2
        = (native_read io' k filename' "auto" true true (files w')).2 ->
        (io_call io (read_name k) [PyStr filename] ∅ w).1
        = (io_call io' (read_name k) [PyStr filename'] ∅ w').1
        /\ heap (io_call io (read_name k) [PyStr filename] ∅ w).2
           = heap (io_call io' (read_name k) [PyStr filename'] ∅ w').2).
Proof.
  split; [|split].
  - apply read_call.
  - apply read_total.
  - intros io' filename filename' w w' Hheap Hent.
    rewrite !read_call. unfold returned_object, alloc. cbn.
    by rewrite Hheap, Hent.
Qed.

(** C1 (as stated, refuted): reading a point cloud from a path that does
    not exist fails in the native reader, yet [read_point_cloud] returns the
    bare object; no false flag comes with it. *)
Lemma missing_file_read_hands_back_no_flag :
  let io := SpecIO Raw.registry in
  let r := io_call io "read_point_cloud" [PyStr "/nonexistent/path.ply"] ∅
             Raw.empty_world in
  (native_read io KPointCloud "/nonexistent/path.ply" "auto" true true ∅).1
  = false
  /\ r.1 = Returned (PyObj 0)
  /\ result_flag r.1 <> Some false.
Proof. by vm_compute. Qed.

(** C1 (amended): when the native reader fails and leaves the fresh entity
    as it was constructed, [read_<kind>] returns that default-constructed
    entity and nothing else: it does not raise, and no flag is handed
    back. *)
Theorem failed_read_returns_default_entity_alone (io : NativeIO) (k : Kind)
    (filename : string) (w : World) :
  native_read io k filename "auto" true true (files w)
  = (false, default_entity k) ->
  io_call io (read_name k) [PyStr filename] ∅ w
  = returned_object k (default_entity k) w
  /\ result_flag (io_call io (read_name k) [PyStr filename] ∅ w).1 = None.
Proof.
  intros Hfail. rewrite read_call, Hfail. by split.
Qed.

(** The amended C1 at the missing point-cloud file. *)
Lemma failed_read_witness :
  native_read (SpecIO Raw.registry) KPointCloud "/nonexistent/path.ply"
    "auto" true true (files Raw.empty_world)
  = (false, default_entity KPointCloud)
  /\ io_call (SpecIO Raw.registry) (read_name KPointCloud)
       [PyStr "/nonexistent/path.ply"] ∅ Raw.empty_world
     = returned_object KPointCloud (default_entity KPointCloud)
         Raw.empty_world.
Proof.
  split; [reflexivity|].
  apply (failed_read_returns_default_entity_alone (SpecIO Raw.registry)
           KPointCloud "/nonexistent/path.ply" Raw.empty_world).
  reflexivity.
Defined.

(** ** Writes *)

(** C9: no [write_<kind>] call, whatever its arguments, changes a bound
    object: after the call every entity, the one written included, is what
    it was before.  The entity parameter is a const reference, and a value
    for [write_pose_graph]. *)
Theorem write_leaves_entities_unchanged (io : NativeIO) (k : Kind) :
  (forall pos kw w, heap (io_call io (write_name k) pos kw w).2 = heap w)
  /\ fn_sig (write_def k) !! 1
     = Some (if decide (k = KPoseGraph) then TByValue k else TConstRef k).
Proof.
  split; [|by destruct k].
  intros pos kw w. unfold io_call, call. rewrite lookup_write.
  apply call_function_heap. by destruct k.
Qed.

(** C3 (the defect): [write_pose_graph] hands [None] to its caller, whatever
    flag the native writer returned. *)
Theorem write_pose_graph_returns_None (io : NativeIO) (filename : string)
    (g : PoseGraph) (fs : FS) :
  io_call io "write_pose_graph" [PyStr filename; PyObj 0] ∅
    {| heap := [existT KPoseGraph g]; files := fs |}
  = (Returned PyNone,
     {| heap := [existT KPoseGraph g];
        files := (WritePoseGraph io filename g fs).2 |}).
Proof.
  unfold io_call, call.
  change (lookup_def pybind_io "write_pose_graph")
    with (Some def_write_pose_graph).
  unfold call_function. run_call. cbn. rewrite as_kind_existT.
  unfold write_pose_graph, mbind, IO_bind, mret, IO_ret.
  by destruct (WritePoseGraph io filename g fs).
Qed.

(** The other nine write functions return the native writer's flag. *)
Lemma write_returns_flag (io : NativeIO) (k : Kind) (pos : list PyValue)
    (kw : gmap string PyValue) (w : World) :
  k <> KPoseGraph ->
  (io_call io (write_name k) pos kw w).1 = Raised TypeError
  \/ exists b, (io_call io (write_name k) pos kw w).1 = Returned (PyBool b).
Proof.
  intros Hk. unfold io_call, call. rewrite lookup_write.
  destruct (call_function_cases io (write_def k) pos kw w)
    as [->|(vs & body & _ & ->)]; [by left|right].
  destruct k; try done; by eexists.
Qed.

(** X1: [write_<kind>(filename, entity)] with the options left out runs the
    native writer of that kind on the entity with the default options; it
    returns the writer's flag ([None] for [write_pose_graph]) and leaves the
    files as the writer left them and every bound object as it was. *)
Theorem write_call (io : NativeIO) (k : Kind) (filename : string) (l : nat)
    (e : entity k) (w : World) :
  heap w !! l = Some (existT k e : Entity) ->
  io_call io (write_name k) [PyStr filename; PyObj l] ∅ w
  = let r := native_write io k filename e false false true true 90 (files w) in
    (Returned (if decide (k = KPoseGraph) then PyNone else PyBool r.1),
     {| heap := heap w; files := r.2 |}).
Proof.
  intros Hheap. unfold io_call, call. rewrite lookup_write.
  destruct k; unfold call_function; cbn [write_def]; run_call;
    rewrite Hheap; cbn; rewrite as_kind_existT;
    unfold write_image, write_line_set, write_point_cloud,
      write_triangle_mesh, write_voxel_grid, write_pinhole_camera_intrinsic,
      write_pinhole_camera_parameters, write_pinhole_camera_trajectory,
      write_feature, write_pose_graph, mbind, IO_bind, mret, IO_ret;
    match goal with
    | |- context [?wr (files w)] => by destruct (wr (files w))
    end.
Qed.

(** X1 at the triangle of the examples. *)
Lemma write_call_witness :
  heap Raw.mesh_world !! 0
  = Some (existT KTriangleMesh Raw.triangle : Entity)
  /\ (io_call (SpecIO Raw.registry) "write_triangle_mesh"
        [PyStr "triangle.raw"; PyObj 0] ∅ Raw.mesh_world).1
     = Returned (PyBool true).
Proof.
  split; [reflexivity|].
  change "write_triangle_mesh" with (write_name KTriangleMesh).
  rewrite (write_call (SpecIO Raw.registry) KTriangleMesh "triangle.raw" 0
             Raw.triangle Raw.mesh_world eq_refl).
  reflexivity.
Defined.

(** ** Arguments and their defaults *)

(** C4 (as stated, refuted): [read_image] declares no format argument, and
    a call that names one is rejected. *)
Lemma read_image_takes_no_format :
  takes_format (read_def KImage) = false
  /\ (io_call (SpecIO Raw.registry) "read_image" [PyStr "x.png"]
        {["format" := PyStr "auto"]} Raw.empty_world).1
     = Raised TypeError.
Proof. by vm_compute. Qed.

(** C4 (amended): exactly [read_line_set], [read_point_cloud] and
    [read_voxel_grid] take a format argument, a string with default
    ["auto"], next to the filename: a format given to one of them reaches
    the native reader, and left out it is ["auto"]; the other seven read
    functions take the filename only and reject a call that names a
    format. *)
Theorem read_format_argument (io : NativeIO) (k : Kind) :
  takes_format (read_def k) = reads_with_format k
  /\ (forall filename fmt w,
        io_call io (read_name k) [PyStr filename] {["format" := PyStr fmt]} w
        = if reads_with_format k
          then returned_object k
                 (native_read io k filename fmt true true (files w)).2 w
          else (Raised TypeError, w))
  /\ (forall filename w,
        reads_with_format k = true ->
        io_call io (read_name k) [PyStr filename] ∅ w
        = io_call io (read_name k) [PyStr filename]
            {["format" := PyStr "auto"]} w).
Proof.
  split; [by destruct k|].
  assert (forall filename fmt w,
            io_call io (read_name k) [PyStr filename]
              {["format" := PyStr fmt]} w
            = if reads_with_format k
              then returned_object k
                     (native_read io k filename fmt true true (files w)).2 w
              else (Raised TypeError, w)) as Hcall.
  { intros filename fmt w. unfold io_call, call. rewrite lookup_read.
    pose proof (read_lambda io k filename fmt true true (files w)) as Hbody.
    destruct k; unfold call_function; cbn [read_def reads_with_format] in *;
      run_call; first [done | by rewrite Hbody]. }
  split; [done|].
  intros filename w Hk. rewrite Hcall, Hk. apply read_call.
Qed.

(** Positional values are bound in place. *)
Lemma bind_args_positional (args : list Arg) (pos : list PyValue)
    (kw : gmap string PyValue) (vs : list PyValue) (i : nat) (v : PyValue) :
  bind_args args pos kw = Some vs ->
  pos !! i = Some v ->
  vs !! i = Some v.
Proof.
  revert pos vs i.
  induction args as [|a args IH]; intros pos vs i Hbind Hpos.
  - destruct pos; [done|]. by simpl in Hbind.
  - destruct pos as [|p pos]; [done|].
    simpl in Hbind.
    destruct (bind_args args pos kw) as [vs'|] eqn:Hrest; [|done].
    injection Hbind as <-.
    destruct i as [|i]; [done|]. cbn in *. by apply (IH pos).
Qed.

(** C7 (as stated, refuted): [write_triangle_mesh] called with a format
    that names no registered codec does not return false; the call is
    rejected. *)
Lemma explicit_format_is_rejected_not_false :
  let r := io_call (SpecIO Raw.registry) "write_triangle_mesh"
             [PyStr "x.unknownext"; PyObj 0]
             {["format" := PyStr "unknownext"]} Raw.mesh_world in
  codecFor Raw.registry KTriangleMesh "unknownext" = None
  /\ r.1 = Raised TypeError
  /\ r.1 <> Returned (PyBool false).
Proof. by vm_compute. Qed.

(** C7 (amended): [write_triangle_mesh] declares no format argument.  A
    call that gives a format, by keyword or as a third positional string,
    is rejected with [TypeError] before the native writer runs: it returns
    no boolean, and no file is created or overwritten. *)
Theorem write_triangle_mesh_rejects_format (io : NativeIO)
    (pos : list PyValue) (kw : gmap string PyValue) (w : World) :
  is_Some (kw !! "format") \/ (exists fmt, pos !! 2 = Some (PyStr fmt)) ->
  io_call io "write_triangle_mesh" pos kw w = (Raised TypeError, w).
Proof.
  intros Hfmt. unfold io_call, call.
  change (lookup_def pybind_io "write_triangle_mesh")
    with (Some def_write_triangle_mesh).
  unfold call_function.
  destruct Hfmt as [[v Hkw]|[fmt Hpos]].
  - rewrite (bind_args_unknown_keyword _ pos kw "format" v Hkw); [done|].
    cbn. intros Hin.
    repeat (apply elem_of_cons in Hin as [?|Hin]; [done|]).
    by apply elem_of_nil in Hin.
  - destruct (bind_args _ pos kw) as [vs|] eqn:Hbind; [|done].
    pose proof (bind_args_positional _ _ _ _ _ _ Hbind Hpos) as Hvs.
    destruct vs as [|v0 [|v1 [|v2 vs]]]; try done.
    injection Hvs as ->. cbn.
    by repeat case_match.
Qed.

(** The amended C7 at a call that names an unknown format. *)
Lemma write_triangle_mesh_rejects_format_witness :
  is_Some (({["format" := PyStr "unknownext"]} : gmap string PyValue)
             !! "format")
  /\ io_call (SpecIO Raw.registry) "write_triangle_mesh"
       [PyStr "x.unknownext"; PyObj 0] {["format" := PyStr "unknownext"]}
       Raw.mesh_world
     = (Raised TypeError, Raw.mesh_world).
Proof.
  split; [by eexists|].
  apply (write_triangle_mesh_rejects_format (SpecIO Raw.registry)
           [PyStr "x.unknownext"; PyObj 0]
           {["format" := PyStr "unknownext"]} Raw.mesh_world).
  left. by eexists.
Defined.

(** C5: the defaults declared at registration.  Among all arguments of all
    functions, [remove_nan_points] and [remove_infinite_points] default to
    true and belong to [read_point_cloud] only, [quality] defaults to 90 and
    belongs to [write_image] only, [write_ascii] and [compressed] default to
    false, [write_vertex_normals] and [write_vertex_colors] default to true
    and belong to [write_triangle_mesh] only; and a call that leaves the
    options out runs as the call that spells the defaults out. *)
Theorem option_defaults :
  (forall f a, In f pybind_io -> In a (fn_args f) ->
     (arg_name a = "remove_nan_points" \/ arg_name a = "remove_infinite_points"
      -> arg_default a = Some (PyBool true)
         /\ fn_name f = "read_point_cloud")
     /\ (arg_name a = "quality"
         -> arg_default a = Some (PyInt 90) /\ fn_name f = "write_image")
     /\ (arg_name a = "write_ascii" \/ arg_name a = "compressed"
         -> arg_default a = Some (PyBool false))
     /\ (arg_name a = "write_vertex_normals"
         \/ arg_name a = "write_vertex_colors"
         -> arg_default a = Some (PyBool true)
            /\ fn_name f = "write_triangle_mesh"))
  /\ (forall io filename l w,
        io_call io "read_point_cloud" [PyStr filename] ∅ w
        = io_call io "read_point_cloud"
            [PyStr filename; PyStr "auto"; PyBool true; PyBool true] ∅ w
        /\ io_call io "write_image" [PyStr filename; PyObj l] ∅ w
           = io_call io "write_image" [PyStr filename; PyObj l; PyInt 90] ∅ w
        /\ io_call io "write_triangle_mesh" [PyStr filename; PyObj l] ∅ w
           = io_call io "write_triangle_mesh"
               [PyStr filename; PyObj l; PyBool false; PyBool false;
                PyBool true; PyBool true] ∅ w
        /\ (forall k,
              k = KLineSet \/ k = KPointCloud \/ k = KVoxelGrid ->
              io_call io (write_name k) [PyStr filename; PyObj l] ∅ w
              = io_call io (write_name k)
                  [PyStr filename; PyObj l; PyBool false; PyBool false] ∅ w))
  /\ Forall (fun n => exists f a,
                In f pybind_io /\ In a (fn_args f) /\ arg_name a = n)
       ["remove_nan_points"; "remove_infinite_points"; "quality";
        "write_ascii"; "compressed"; "write_vertex_normals";
        "write_vertex_colors"].
Proof.
  assert (forall f a, In a (fn_args f) -> In f pybind_io ->
            exists f' a', In f' pybind_io /\ In a' (fn_args f')
                          /\ arg_name a' = arg_name a) as Hex
    by (intros f a ? ?; by exists f, a).
  split; [|split].
  - intros f a Hf Ha. unfold pybind_io in Hf. cbn [In] in Hf.
    repeat (destruct Hf as [<-|Hf]; [|]); try done;
      cbn [In fn_args def def_read_image def_write_image def_read_line_set
             def_write_line_set def_read_point_cloud def_write_point_cloud
             def_read_triangle_mesh def_write_triangle_mesh
             def_read_voxel_grid def_write_voxel_grid
             def_read_pinhole_camera_intrinsic
             def_write_pinhole_camera_intrinsic
             def_read_pinhole_camera_parameters
             def_write_pinhole_camera_parameters
             def_read_pinhole_camera_trajectory
             def_write_pinhole_camera_trajectory
             def_read_feature def_write_feature
             def_read_pose_graph def_write_pose_graph] in Ha;
      repeat (destruct Ha as [<-|Ha]; [|]); try done;
      cbn; repeat split; intros; by intuition.
  - intros io filename l w.
    split; [reflexivity|]. split; [reflexivity|]. split; [reflexivity|].
    intros k Hk. by destruct Hk as [->|[->| ->]].
  - repeat constructor.
    + apply (Hex def_read_point_cloud (_a_eq "remove_nan_points" (PyBool true)));
        cbn; tauto.
    + apply (Hex def_read_point_cloud
               (_a_eq "remove_infinite_points" (PyBool true))); cbn; tauto.
    + apply (Hex def_write_image (_a_eq "quality" (PyInt 90))); cbn; tauto.
    + apply (Hex def_write_line_set (_a_eq "write_ascii" (PyBool false)));
        cbn; tauto.
    + apply (Hex def_write_line_set (_a_eq "compressed" (PyBool false)));
        cbn; tauto.
    + apply (Hex def_write_triangle_mesh
               (_a_eq "write_vertex_normals" (PyBool true))); cbn; tauto.
    + apply (Hex def_write_triangle_mesh
               (_a_eq "write_vertex_colors" (PyBool true))); cbn; tauto.
Qed.

(** ** The filter stage *)

Section Select.
Context {A : Type}.
Implicit Types (mask : list bool) (l : list A).







End Select.








(** Reading [cloud.raw], five points of which one has a NaN and one an
    infinite coordinate, with the default options: three points are left,
    each with its own normal. *)
Example read_dirty_cloud :
  let r := io_call (SpecIO Raw.registry) "read_point_cloud"
             [PyStr "cloud.raw"] ∅ Raw.cloud_world in
  r.1 = Returned (PyObj 0)
  /\ heap r.2
     = [existT KPointCloud
          {| points_ := [(0, 0, 0); (1, 1, 1); (2, 2, 2)]%float;
             normals_ := [(0, 0, 1); (1, 0, 0); (1, 1, 0)]%float;
             colors_ := [] |}].
Proof. by vm_compute. Qed.

(** ** Writing a mesh without its colors *)


(** A failed read through the facade leaves a default-constructed entity:
    over the facade, every failure is one the amended C1 speaks of. *)
Lemma facade_read_failure (R : Registry) (k : Kind)
    (filename formatTag : string) (f : FilterOptions) (fs : FS) :
  (facade_read R k filename formatTag f fs).1 = false ->
  facade_read R k filename formatTag f fs = (false, default_entity k).
Proof.
  unfold facade_read. by repeat case_match.
Qed.

Lemma spec_read_failure (R : Registry) (k : Kind) (filename format : string)
    (rn ri : bool) (fs : FS) :
  (native_read (SpecIO R) k filename format rn ri fs).1 = false ->
  native_read (SpecIO R) k filename format rn ri fs
  = (false, default_entity k).
Proof. destruct k; apply facade_read_failure. Qed.

Section RawLayout.
Import Raw.




End RawLayout.

(** The mesh read back after that write: the geometry and the normals of
    the triangle, and no colors. *)
Example read_back_colorless :
  heap (io_call (SpecIO Raw.registry) "read_triangle_mesh"
          [PyStr "triangle.raw"] ∅ Raw.colorless_write.2).2 !! 1
  = Some (existT KTriangleMesh
            {| vertices_ := vertices_ Raw.triangle;
               triangles_ := triangles_ Raw.triangle;
               vertex_normals_ := vertex_normals_ Raw.triangle;
               vertex_colors_ := [] |} : Entity).
Proof. by vm_compute. Qed.

(** ** Further properties of the registrations *)

(** X2: the shared docstring table and the registrations agree.  No key is
    written twice, so the map holds every entry of the list; every argument
    of every function has a docstring in it; and every key of the map is
    the name of an argument some function declares. *)
Theorem shared_docstrings_cover_arguments :
  NoDup (shared_argument_docstrings.*1)
  /\ (forall key doc,
        map_shared_argument_docstrings !! key = Some doc
        <-> In (key, doc) shared_argument_docstrings)
  /\ (forall f a, In f pybind_io -> In a (fn_args f) ->
        is_Some (map_shared_argument_docstrings !! arg_name a))
  /\ (forall key, is_Some (map_shared_argument_docstrings !! key) ->
        exists f a, In f pybind_io /\ In a (fn_args f) /\ arg_name a = key).
Proof.
  assert (NoDup (shared_argument_docstrings.*1)) as Hnodup
    by (apply (bool_decide_unpack _); by vm_compute).
  assert (forall key doc,
            map_shared_argument_docstrings !! key = Some doc
            <-> In (key, doc) shared_argument_docstrings) as Hmap.
  { intros key doc. rewrite <- list_elem_of_In.
    unfold map_shared_argument_docstrings. split.
    - apply elem_of_list_to_map_2.
    - by apply elem_of_list_to_map_1. }
  split; [done|]. split; [done|]. split.
  - intros f a Hf Ha. unfold pybind_io in Hf. cbn [In] in Hf.
    repeat (destruct Hf as [<-|Hf]; [|]); try done;
      cbn in Ha; repeat (destruct Ha as [<-|Ha]; [|]); try done;
      by vm_compute.
  - intros key [doc Hdoc]. apply Hmap in Hdoc.
    assert (forall f a, In a (fn_args f) -> In f pybind_io ->
              exists f' a', In f' pybind_io /\ In a' (fn_args f')
                            /\ arg_name a' = arg_name a) as Hex
      by (intros f a ? ?; by exists f, a).
    unfold shared_argument_docstrings in Hdoc. cbn [In] in Hdoc.
    repeat (destruct Hdoc as [[= <- <-]|Hdoc]; [|]); try done.
    + apply (Hex def_read_image (_a "filename")); cbn; tauto.
    + apply (Hex def_write_line_set (_a_eq "compressed" (PyBool false)));
        cbn; tauto.
    + apply (Hex def_read_line_set (_a_eq "format" (PyStr "auto")));
        cbn; tauto.
    + apply (Hex def_read_point_cloud
               (_a_eq "remove_nan_points" (PyBool true))); cbn; tauto.
    + apply (Hex def_read_point_cloud
               (_a_eq "remove_infinite_points" (PyBool true))); cbn; tauto.
    + apply (Hex def_write_image (_a_eq "quality" (PyInt 90))); cbn; tauto.
    + apply (Hex def_write_line_set (_a_eq "write_ascii" (PyBool false)));
        cbn; tauto.
    + apply (Hex def_write_triangle_mesh
               (_a_eq "write_vertex_normals" (PyBool true))); cbn; tauto.
    + apply (Hex def_write_triangle_mesh
               (_a_eq "write_vertex_colors" (PyBool true))); cbn; tauto.
    + apply (Hex def_write_point_cloud (_a "pointcloud")); cbn; tauto.
    + apply (Hex def_write_triangle_mesh (_a "mesh")); cbn; tauto.
    + apply (Hex def_write_line_set (_a "line_set")); cbn; tauto.
    + apply (Hex def_write_image (_a "image")); cbn; tauto.
    + apply (Hex def_write_voxel_grid (_a "voxel_grid")); cbn; tauto.
    + apply (Hex def_write_pinhole_camera_trajectory (_a "trajectory"));
        cbn; tauto.
    + apply (Hex def_write_pinhole_camera_intrinsic (_a "intrinsic"));
        cbn; tauto.
    + apply (Hex def_write_pinhole_camera_parameters (_a "parameters"));
        cbn; tauto.
    + apply (Hex def_write_pose_graph (_a "pose_graph")); cbn; tauto.
    + apply (Hex def_write_feature (_a "feature")); cbn; tauto.
Qed.

(** X3: the submodule holds exactly one function under each name: a name
    resolves to a registration if and only if that is the registration of
    this name, so no [def] hides or overloads another; and the functions
    are the read and the write function of the ten kinds. *)
Theorem every_function_reachable :
  (forall name f,
     lookup_def pybind_io name = Some f
     <-> In f pybind_io /\ fn_name f = name)
  /\ (forall f, In f pybind_io <-> exists k, f = read_def k \/ f = write_def k).
Proof.
  split.
  - intros name f. split.
    + intros Hfind. apply find_some in Hfind as [Hin Heq].
      split; [done|]. by apply String.eqb_eq.
    + intros [Hin <-]. unfold pybind_io in Hin. cbn [In] in Hin.
      repeat (destruct Hin as [<-|Hin]; [reflexivity|]). done.
  - intros f. split.
    + intros Hin. unfold pybind_io in Hin. cbn [In] in Hin.
      repeat (destruct Hin as [<-|Hin];
              [first [ by exists KImage; auto
                     | by exists KLineSet; auto
                     | by exists KPointCloud; auto
                     | by exists KTriangleMesh; auto
                     | by exists KVoxelGrid; auto
                     | by exists KPinholeCameraIntrinsic; auto
                     | by exists KPinholeCameraParameters; auto
                     | by exists KPinholeCameraTrajectory; auto
                     | by exists KFeature; auto
                     | by exists KPoseGraph; auto ]|]).
      done.
    + intros [k [->| ->]]; destruct k; unfold pybind_io; cbn [In read_def write_def];
        tauto.
Qed.

(** The first bound value comes from the first positional value, else from
    the keyword of the first argument, else from its default. *)
Lemma bind_args_head (a : Arg) (args : list Arg) (pos : list PyValue)
    (kw : gmap string PyValue) (vs : list PyValue) :
  bind_args (a :: args) pos kw = Some vs ->
  exists v vs',
    vs = v :: vs'
    /\ (pos !! 0 = Some v
        \/ (pos = [] /\ kw !! arg_name a = Some v)
        \/ (pos = [] /\ kw !! arg_name a = None /\ arg_default a = Some v)).
Proof.
  cbn [bind_args]. destruct pos as [|p pos].
  - destruct (kw !! arg_name a) as [v|] eqn:Hkw.
    + destruct (bind_args args [] _) as [vs'|]; [|done].
      intros [= <-]. exists v, vs'. split; [done|]. right; left. done.
    + destruct (arg_default a) as [d|]; [|done].
      destruct (bind_args args [] kw) as [vs'|]; [|done].
      intros [= <-]. exists d, vs'. split; [done|]. right; right. done.
  - destruct (bind_args args pos kw) as [vs'|]; [|done].
    intros [= <-]. exists p, vs'. split; [done|]. by left.
Qed.

(** A function whose first parameter is the required string [filename]
    rejects a call that gives it no string. *)
Lemma no_filename_rejected (io : NativeIO) (name : string)
    (sig : list ArgType) (ret : RetType)
    (impl : NativeIO -> arrow (TString :: sig) (IO (cpp_ret ret)))
    (doc : string) (args : list Arg) (pos : list PyValue)
    (kw : gmap string PyValue) (w : World) :
  (forall s, pos !! 0 <> Some (PyStr s)) ->
  (forall s, kw !! "filename" <> Some (PyStr s)) ->
  call_function io (def name (TString :: sig) ret impl doc
                      (_a "filename" :: args)) pos kw w
  = (Raised TypeError, w).
Proof.
  intros Hpos Hkw. unfold call_function. cbn [fn_args fn_sig fn_impl def].
  destruct (bind_args _ pos kw) as [vs|] eqn:Hbind; [|done].
  apply bind_args_head in Hbind as (v & vs' & -> & Hv).
  cbn [invoke].
  destruct v; try done.
  exfalso. destruct Hv as [Hv|[[_ Hv]|(_ & _ & Hv)]].
  - by eapply Hpos.
  - by eapply Hkw.
  - done.
Qed.

(** X4: every one of the twenty functions needs its filename as a string: a
    call that gives none, positionally or by keyword, is rejected with
    [TypeError], and nothing is read or written. *)
Theorem filename_is_required (io : NativeIO) (k : Kind)
    (pos : list PyValue) (kw : gmap string PyValue) (w : World) :
  (forall s, pos !! 0 <> Some (PyStr s)) ->
  (forall s, kw !! "filename" <> Some (PyStr s)) ->
  io_call io (read_name k) pos kw w = (Raised TypeError, w)
  /\ io_call io (write_name k) pos kw w = (Raised TypeError, w).
Proof.
  intros Hpos Hkw. unfold io_call, call. rewrite lookup_read, lookup_write.
  split; destruct k; by apply no_filename_rejected.
Qed.

(** X4 at calls without arguments. *)
Lemma filename_is_required_witness :
  io_call (SpecIO Raw.registry) "read_image" [] ∅ Raw.empty_world
  = (Raised TypeError, Raw.empty_world)
  /\ io_call (SpecIO Raw.registry) "write_image" [] ∅ Raw.empty_world
     = (Raised TypeError, Raw.empty_world).
Proof.
  apply (filename_is_required (SpecIO Raw.registry) KImage [] ∅
           Raw.empty_world); intros s; discriminate.
Defined.

(** ** Further properties of the calls *)

Lemma as_kind_Some (k : Kind) (e : Entity) (x : entity k) :
  as_kind k e = Some x -> e = existT k x.
Proof.
  destruct e as [k' x']. unfold as_kind; cbn.
  destruct (decide (k' = k)) as [->|]; [|done]. cbn. by intros [= ->].
Qed.

(** A value that is no reference to a bound object of class [k] does not
    convert to a [T] parameter. *)
Lemma cast_object_None (h : list Entity) (k : Kind) (v : PyValue) :
  (forall l e, v = PyObj l -> h !! l <> Some (existT k e : Entity)) ->
  cast h (TConstRef k) v = None /\ cast h (TByValue k) v = None.
Proof.
  intros Hv. destruct v as [| | | |l|]; try done. cbn.
  destruct (h !! l) as [e|] eqn:Hl; [|done]. cbn.
  destruct (as_kind k e) as [x|] eqn:Hk; [|done].
  apply as_kind_Some in Hk as ->. by destruct (Hv l x eq_refl).
Qed.

(** X5: a write function runs only on an object of its own class.  When
    the second positional value is anything else -- an object of another
    class, a reference to nothing, a value that is no object -- the call is
    rejected with [TypeError]: the native writer is not run and no file
    changes. *)
Theorem write_rejects_other_class (io : NativeIO) (k : Kind)
    (pos : list PyValue) (kw : gmap string PyValue) (w : World)
    (v : PyValue) :
  pos !! 1 = Some v ->
  (forall l e, v = PyObj l -> heap w !! l <> Some (existT k e : Entity)) ->
  io_call io (write_name k) pos kw w = (Raised TypeError, w).
Proof.
  intros Hpos Hv. unfold io_call, call. rewrite lookup_write.
  apply cast_object_None in Hv as [Hcref Hcval].
  unfold call_function.
  destruct (bind_args _ pos kw) as [vs|] eqn:Hbind; [|done].
  pose proof (bind_args_positional _ _ _ _ _ _ Hbind Hpos) as Hvs.
  destruct vs as [|v0 [|v1 vs]]; try done. injection Hvs as ->.
  destruct k; cbn [invoke fn_sig fn_impl write_def def
                     def_write_image def_write_line_set def_write_point_cloud
                     def_write_triangle_mesh def_write_voxel_grid
                     def_write_pinhole_camera_intrinsic
                     def_write_pinhole_camera_parameters
                     def_write_pinhole_camera_trajectory
                     def_write_feature def_write_pose_graph];
    destruct (cast (heap w) TString v0); try done;
    by rewrite ?Hcref, ?Hcval.
Qed.

(** X5 at [write_image] called on the triangle mesh. *)
Lemma write_rejects_other_class_witness :
  io_call (SpecIO Raw.registry) "write_image" [PyStr "x.png"; PyObj 0] ∅
    Raw.mesh_world
  = (Raised TypeError, Raw.mesh_world).
Proof.
  apply (write_rejects_other_class (SpecIO Raw.registry) KImage
           [PyStr "x.png"; PyObj 0] ∅ Raw.mesh_world (PyObj 0)).
  - reflexivity.
  - intros l e [= <-]. discriminate.
Defined.

(** Unfolding the ten write lambdas. *)
Ltac unfold_write_lambdas :=
  unfold write_image, write_line_set, write_point_cloud,
    write_triangle_mesh, write_voxel_grid, write_pinhole_camera_intrinsic,
    write_pinhole_camera_parameters, write_pinhole_camera_trajectory,
    write_feature, write_pose_graph, mbind, IO_bind, mret, IO_ret.

(** A write call with every option given in place. *)
Lemma write_call_options (io : NativeIO) (k : Kind) (filename : string)
    (l : nat) (e : entity k) (a c n col : bool) (q : Z) (w : World) :
  heap w !! l = Some (existT k e : Entity) ->
  int_range q = true ->
  io_call io (write_name k)
    (PyStr filename :: PyObj l :: write_option_args k a c n col q) ∅ w
  = write_result k (native_write io k filename e a c n col q (files w)) w.
Proof.
  intros Hheap Hq. unfold io_call, call. rewrite lookup_write.
  destruct k; unfold call_function, write_result;
    cbn [write_def write_option_args]; run_call;
    rewrite Hheap; cbn; rewrite as_kind_existT, ?Hq;
    unfold_write_lambdas;
    match goal with
    | |- context [?wr (files w)] => by destruct (wr (files w))
    end.
Qed.

(** X6: the options of a write call reach the native writer unchanged and
    under the right parameter, given in order or by name: for every kind,
    [write_<kind>] called with the filename, an object of its class and its
    options runs the native writer on exactly these values, returns its
    flag ([None] for [write_pose_graph]) and leaves the files as the writer
    left them.  The quality of an image must fit an [int]. *)
Theorem write_options_reach_writer (io : NativeIO) (k : Kind)
    (filename : string) (l : nat) (e : entity k) (a c n col : bool) (q : Z)
    (w : World) :
  heap w !! l = Some (existT k e : Entity) ->
  int_range q = true ->
  io_call io (write_name k)
    (PyStr filename :: PyObj l :: write_option_args k a c n col q) ∅ w
  = write_result k (native_write io k filename e a c n col q (files w)) w
  /\ io_call io (write_name k) [PyStr filename; PyObj l]
       (write_option_kw k a c n col q) w
     = write_result k (native_write io k filename e a c n col q (files w)) w.
Proof.
  intros Hheap Hq.
  assert (io_call io (write_name k) [PyStr filename; PyObj l]
            (write_option_kw k a c n col q) w
          = io_call io (write_name k)
              (PyStr filename :: PyObj l :: write_option_args k a c n col q)
              ∅ w) as ->
    by (by destruct k).
  split; by apply write_call_options.
Qed.

(** X6 at the triangle, written in ASCII without its normals. *)
Lemma write_options_reach_writer_witness :
  io_call (SpecIO Raw.registry) "write_triangle_mesh"
    [PyStr "triangle.raw"; PyObj 0; PyBool true; PyBool false; PyBool false;
     PyBool true] ∅ Raw.mesh_world
  = write_result KTriangleMesh
      (WriteTriangleMesh (SpecIO Raw.registry) "triangle.raw" Raw.triangle
         true false false true ∅) Raw.mesh_world.
Proof.
  apply (write_options_reach_writer (SpecIO Raw.registry) KTriangleMesh
           "triangle.raw" 0 Raw.triangle true false false true 90
           Raw.mesh_world); reflexivity.
Defined.

(** A read call with every option given in place. *)
Lemma read_call_options (io : NativeIO) (k : Kind) (filename format : string)
    (rn ri : bool) (w : World) :
  io_call io (read_name k) (PyStr filename :: read_option_args k format rn ri)
    ∅ w
  = returned_object k
      (native_read io k filename
         (if reads_with_format k then format else "auto")
         (match k with KPointCloud => rn | _ => true end)
         (match k with KPointCloud => ri | _ => true end) (files w)).2 w.
Proof.
  unfold io_call, call. rewrite lookup_read.
  pose proof (read_lambda io k filename
                (if reads_with_format k then format else "auto")
                (match k with KPointCloud => rn | _ => true end)
                (match k with KPointCloud => ri | _ => true end) (files w))
    as Hbody.
  destruct k; unfold call_function;
    cbn [read_def read_option_args reads_with_format] in *;
    run_call; by rewrite Hbody.
Qed.

(** X7: the options of a read call reach the native reader unchanged and
    under the right parameter, given in order or by name: the format of
    [read_line_set], [read_point_cloud] and [read_voxel_grid], and the two
    filter flags of [read_point_cloud] in the order NaN, infinite.  The
    reader runs on a default-constructed entity and the entity it leaves
    is returned as a new object. *)
Theorem read_options_reach_reader (io : NativeIO) (k : Kind)
    (filename format : string) (rn ri : bool) (w : World) :
  reads_with_format k = true ->
  io_call io (read_name k) (PyStr filename :: read_option_args k format rn ri)
    ∅ w
  = returned_object k (native_read io k filename format rn ri (files w)).2 w
  /\ io_call io (read_name k) [PyStr filename] (read_option_kw k format rn ri)
       w
     = returned_object k (native_read io k filename format rn ri (files w)).2
         w.
Proof.
  intros Hk.
  assert (io_call io (read_name k) [PyStr filename]
            (read_option_kw k format rn ri) w
          = io_call io (read_name k)
              (PyStr filename :: read_option_args k format rn ri) ∅ w) as ->
    by (by destruct k).
  rewrite read_call_options, Hk.
  by destruct k.
Qed.

(** X7 at a read of [cloud.raw] that keeps the NaN point and drops the
    infinite one. *)
Lemma read_options_reach_reader_witness :
  io_call (SpecIO Raw.registry) "read_point_cloud"
    [PyStr "cloud.raw"; PyStr "raw"; PyBool false; PyBool true] ∅
    Raw.cloud_world
  = returned_object KPointCloud
      (ReadPointCloud (SpecIO Raw.registry) "cloud.raw"
         (default_entity KPointCloud) "raw" false true
         (files Raw.cloud_world)).2 Raw.cloud_world.
Proof.
  apply (read_options_reach_reader (SpecIO Raw.registry) KPointCloud
           "cloud.raw" "raw" false true Raw.cloud_world).
  reflexivity.
Defined.

(** X8: what [read_<kind>] returns can be handed to [write_<kind>]: for
    every kind the write call on the returned reference is accepted, and
    the native writer receives exactly the entity the native reader left,
    with the default options. *)
Theorem read_then_write (io : NativeIO) (k : Kind) (filename out : string)
    (w : World) :
  let e := (native_read io k filename "auto" true true (files w)).2 in
  let r := io_call io (read_name k) [PyStr filename] ∅ w in
  exists obj,
    r.1 = Returned obj
    /\ io_call io (write_name k) [PyStr out; obj] ∅ r.2
       = write_result k
           (native_write io k out e false false true true 90 (files w)) r.2.
Proof.
  intros e r. unfold r. rewrite read_call. fold e.
  exists (PyObj (length (heap w))). split; [done|].
  unfold returned_object; cbn [snd].
  assert (io_call io (write_name k) [PyStr out; PyObj (length (heap w))] ∅
            (alloc (existT k e) w)
          = io_call io (write_name k)
              (PyStr out :: PyObj (length (heap w))
               :: write_option_args k false false true true 90) ∅
              (alloc (existT k e) w)) as ->
    by (by destruct k).
  apply (write_call_options io k out (length (heap w)) e false false true
           true 90 (alloc (existT k e) w)); [|done].
  unfold alloc; cbn [heap]. by apply list_lookup_middle.
Qed.

(** X9: a read function without format argument accepts exactly the calls
    that give one string, the filename, in first position or under its
    name; every other call -- no argument, a second value, another keyword,
    a filename that is no string -- is rejected. *)
Theorem filename_only_reads_accept (io : NativeIO) (k : Kind)
    (pos : list PyValue) (kw : gmap string PyValue) (w : World) :
  reads_with_format k = false ->
  accepted (io_call io (read_name k) pos kw w)
  <-> exists s, (pos = [PyStr s] /\ kw = ∅)
                \/ (pos = [] /\ kw = {["filename" := PyStr s]}).
Proof.
  intros Hk. split.
  - unfold accepted, io_call, call. rewrite lookup_read.
    unfold call_function.
    destruct k; try done;
      cbn [read_def fn_args fn_sig fn_impl def def_read_image
             def_read_triangle_mesh def_read_pinhole_camera_intrinsic
             def_read_pinhole_camera_parameters
             def_read_pinhole_camera_trajectory def_read_feature
             def_read_pose_graph bind_args _a arg_name arg_default];
      (destruct pos as [|p [|p' pos]];
       [ destruct (kw !! "filename") as [v|] eqn:Hkw; [|done];
         destruct (decide (size (delete "filename" kw) = 0)) as [Hsize|];
           [|done];
         apply map_size_empty_iff in Hsize;
         cbn; destruct v as [| | |s| |]; try done;
         intros _; exists s; right; split; [done|];
         by rewrite <- (insert_delete_id kw "filename" (PyStr s) Hkw),
              Hsize, insert_empty
       | destruct (decide (size kw = 0)) as [Hsize|]; [|done];
         apply map_size_empty_iff in Hsize;
         cbn; destruct p as [| | |s| |]; try done;
         intros _; exists s; by left
       | done ]).
  - intros [s [[-> ->]|[-> ->]]].
    + unfold accepted. by rewrite read_call.
    + assert (io_call io (read_name k) [] {["filename" := PyStr s]} w
              = io_call io (read_name k) [PyStr s] ∅ w) as ->
        by (by destruct k).
      unfold accepted. by rewrite read_call.
Qed.

(** X9 at [read_image] with its filename given by name. *)
Lemma filename_only_reads_accept_witness :
  accepted (io_call (SpecIO Raw.registry) "read_image" []
              {["filename" := PyStr "x.png"]} Raw.empty_world).
Proof.
  apply (filename_only_reads_accept (SpecIO Raw.registry) KImage []
           {["filename" := PyStr "x.png"]} Raw.empty_world eq_refl).
  exists "x.png". by right.
Defined.

(** When binding succeeds, no more values were given in place than there
    are arguments, and every keyword names an argument that no positional
    value had filled. *)
Lemma bind_args_keywords (args : list Arg) (pos : list PyValue)
    (kw : gmap string PyValue) (vs : list PyValue) :
  bind_args args pos kw = Some vs ->
  length pos <= length args
  /\ forall key, is_Some (kw !! key) ->
       key ∈ map arg_name (drop (length pos) args).
Proof.
  revert pos kw vs.
  induction args as [|a args IH]; intros pos kw vs Hbind; cbn in Hbind.
  - destruct pos; [|done].
    destruct (decide (size kw = 0)) as [Hsize|]; [|done].
    apply map_size_empty_iff in Hsize as ->. split; [done|].
    intros key [v Hv]. by rewrite lookup_empty in Hv.
  - destruct pos as [|p pos].
    + split; [cbn; lia|]. intros key Hkey. cbn.
      destruct (decide (key = arg_name a)) as [->|Hne]; [by left|right].
      destruct (kw !! arg_name a) as [v|].
      * destruct (bind_args args [] _) as [vs'|] eqn:Hrest; [|done].
        apply IH in Hrest as [_ Hrest]. apply Hrest.
        by rewrite lookup_delete_ne.
      * destruct (arg_default a); [|done].
        destruct (bind_args args [] kw) as [vs'|] eqn:Hrest; [|done].
        apply IH in Hrest as [_ Hrest]. by apply Hrest.
    + destruct (bind_args args pos kw) as [vs'|] eqn:Hrest; [|done].
      apply IH in Hrest as [Hlen Hrest]. split; [cbn; lia|]. done.
Qed.

(** X10: none of the twenty functions accepts a value it has no argument
    for.  In an accepted call the positional values are no more than the
    declared arguments, and every keyword is the name of a declared
    argument that no positional value has filled -- so an unknown keyword
    and an argument given both in place and by name are always rejected. *)
Theorem accepted_calls_fit_signature (io : NativeIO) (k : Kind) (rd : bool)
    (pos : list PyValue) (kw : gmap string PyValue) (w : World) :
  let f := if rd then read_def k else write_def k in
  accepted (io_call io (fn_name f) pos kw w) ->
  length pos <= length (fn_args f)
  /\ forall key, is_Some (kw !! key) ->
       key ∈ map arg_name (drop (length pos) (fn_args f)).
Proof.
  intros f. unfold accepted, io_call, call.
  assert (lookup_def pybind_io (fn_name f) = Some f) as ->
    by (unfold f; destruct rd, k; reflexivity).
  unfold call_function.
  destruct (bind_args (fn_args f) pos kw) as [vs|] eqn:Hbind; [|done].
  intros _. by eapply bind_args_keywords.
Qed.

(** X10 at [write_triangle_mesh] with [compressed] given by name. *)
Lemma accepted_calls_fit_signature_witness :
  length [PyStr "x.raw"; PyObj 0] <= length (fn_args def_write_triangle_mesh)
  /\ forall key,
       is_Some (({["compressed" := PyBool true]} : gmap string PyValue)
                  !! key) ->
       key ∈ map arg_name (drop 2 (fn_args def_write_triangle_mesh)).
Proof.
  apply (accepted_calls_fit_signature (SpecIO Raw.registry) KTriangleMesh
           false [PyStr "x.raw"; PyObj 0] {["compressed" := PyBool true]}
           Raw.mesh_world).
  by vm_compute.
Defined.

(** ** The filter stage and the write options, through the calls *)




